(** * extraction.py: the mail-log pipeline, embedded and verified

    The development follows [extraction.py] function by function:
    [extract_and_transform], [save_to_mongodb], [transfer_to_sqlite],
    [run_sql_queries] and [main].

    Library calls the script relies on are embedded next to their callers:
    - [re]: a backtracking matcher with greedy quantifiers and ordered
      alternation, as [re.compile(...).search] and [.match] behave;
    - [datetime.strptime]: the translation of a format into a regular
      expression done by [_strptime.TimeRE.pattern], the conversion of the
      named groups and the range checks of the [datetime] constructor;
    - [datetime.strftime]: the C library's conversions, as CPython 3.11 on
      glibc delegates them;
    - [pymongo]'s [delete_many], [insert_many] and [find];
    - the text mode of [open]: strict UTF-8 decoding and universal
      newlines;
    - SQLite's [INSERT] with AUTOINCREMENT and its 64-bit identifiers,
      [DELETE], [COUNT], [AVG], [GROUP BY], and [substr] and [instr] as
      SQLite 3.40 computes them (a text ends at its first NUL for
      [substr]).

    A Python [str] is a [string]; a character is read as the code point
    of the same number, so texts range over U+0000..U+00FF. The bytes of
    a file are a [string] as well, one character per byte. An [int] is a
    [Z]. An exception is the [Raise] branch of [result]. *)

From Stdlib Require Import String Ascii List ZArith NArith Bool Lia.
From Stdlib Require Import QArith Permutation.
Import ListNotations.

Local Open Scope string_scope.
Local Open Scope Z_scope.

(** ** Exceptions *)

Inductive exn : Type :=
| ValueError (msg : string)
| KeyError (key : string)
| TypeError (msg : string)
| BulkWriteError (msg : string)
| IntegrityError (msg : string)
| ProgrammingError (msg : string)
| OperationalError (msg : string).

Inductive result (A : Type) : Type :=
| Ok (a : A)
| Raise (e : exn).

Arguments Ok {A} a.
Arguments Raise {A} e.

Definition bind {A B : Type} (m : result A) (f : A -> result B) : result B :=
  match m with
  | Ok a => f a
  | Raise e => Raise e
  end.

Notation "x <- m ;; k" := (bind m (fun x => k))
  (at level 61, m at next level, right associativity).
Notation "' p <- m ;; k" := (bind m (fun x => let p := x in k))
  (at level 61, p pattern, m at next level, right associativity).

(** [try: ... except ValueError: ...] *)
Definition try_except_ValueError {A : Type} (m : result A) (h : result A)
  : result A :=
  match m with
  | Raise (ValueError _) => h
  | other => other
  end.

(** ** Characters *)

Module Char.

Definition code (a : ascii) : Z := Z.of_N (N_of_ascii a).

Definition between (lo hi : Z) (a : ascii) : bool :=
  (lo <=? code a) && (code a <=? hi).

(** [\d] on a [str] pattern: the decimal digits. *)
Definition is_digit (a : ascii) : bool := between 48 57 a.

(** [\s] on a [str] pattern: [str.isspace]. *)
Definition is_space (a : ascii) : bool :=
  between 9 13 a || between 28 32 a || between 133 133 a
  || between 160 160 a.

(** [\w] on a [str] pattern: [str.isalnum] or the underscore. *)
Definition is_word (a : ascii) : bool :=
  between 48 57 a || between 65 90 a || between 95 95 a
  || between 97 122 a || between 170 170 a || between 178 179 a
  || between 181 181 a || between 185 186 a || between 188 190 a
  || between 192 214 a || between 216 246 a || between 248 255 a.

(** [str.lower] on one character. *)
Definition lower (a : ascii) : ascii :=
  if between 65 90 a || between 192 214 a || between 216 222 a
  then ascii_of_N (Z.to_N (code a + 32))
  else a.

Definition eqb_nocase (a b : ascii) : bool :=
  Ascii.eqb (lower a) (lower b).

End Char.

Fixpoint str_lower (s : string) : string :=
  match s with
  | EmptyString => EmptyString
  | String a s' => String (Char.lower a) (str_lower s')
  end.

(** ** Regular expressions *)

Module Re.

Inductive cset : Type :=
| Lit (c : ascii)            (* a literal character *)
| Digit                      (* \d *)
| Word                       (* \w *)
| Space                      (* \s *)
| NonSpace                   (* \S *)
| Range (lo hi : ascii).     (* [lo-hi] *)

Inductive regex : Type :=
| Empty
| Set_ (c : cset)
| Cat (r1 r2 : regex)
| Or (r1 r2 : regex)
| Repeat (c : cset) (lo : nat) (hi : option nat)
| Group (name : string) (r : regex).

(** The captured groups, latest first. *)
Definition groups : Type := list (string * string).

Fixpoint group (name : string) (g : groups) : option string :=
  match g with
  | [] => None
  | (n, v) :: g' => if String.eqb n name then Some v else group name g'
  end.

Section Matcher.

(** [re.IGNORECASE]. The only ranges of the patterns below are digit
    ranges, which have no case variants. *)
Variable ignorecase : bool.

Definition accepts (c : cset) (a : ascii) : bool :=
  match c with
  | Lit x => if ignorecase then Char.eqb_nocase x a else Ascii.eqb x a
  | Digit => Char.is_digit a
  | Word => Char.is_word a
  | Space => Char.is_space a
  | NonSpace => negb (Char.is_space a)
  | Range lo hi => Char.between (Char.code lo) (Char.code hi) a
  end.

Definition may_take (hi : option nat) : bool :=
  match hi with
  | None => true
  | Some n => negb (Nat.eqb n 0)
  end.

Definition one_less (hi : option nat) : option nat :=
  match hi with
  | None => None
  | Some n => Some (Nat.pred n)
  end.

(** A greedy quantifier on a one-character item: take as many
    characters as allowed, then give them back one at a time until the
    rest of the pattern matches. *)
Fixpoint repeat_greedy {A : Type} (c : cset) (lo : nat) (hi : option nat)
  (s : string) (k : string -> option A) : option A :=
  let stop := if Nat.eqb lo 0 then k s else None in
  match s with
  | String a s' =>
      if accepts c a && may_take hi then
        match repeat_greedy c (Nat.pred lo) (one_less hi) s' k with
        | Some r => Some r
        | None => stop
        end
      else stop
  | EmptyString => stop
  end.

(** What [r] consumed: the text between [s] and its suffix [s']. *)
Definition consumed (s s' : string) : string :=
  substring 0 (String.length s - String.length s') s.

(** Backtracking match of [r] at the head of [s]; [k] is the rest of
    the pattern. *)
Fixpoint run {A : Type} (r : regex) (s : string) (g : groups)
  (k : string -> groups -> option A) : option A :=
  match r with
  | Empty => k s g
  | Set_ c =>
      match s with
      | String a s' => if accepts c a then k s' g else None
      | EmptyString => None
      end
  | Cat r1 r2 => run r1 s g (fun s1 g1 => run r2 s1 g1 k)
  | Or r1 r2 =>
      match run r1 s g k with
      | Some r => Some r
      | None => run r2 s g k
      end
  | Repeat c lo hi => repeat_greedy c lo hi s (fun s' => k s' g)
  | Group name r1 =>
      run r1 s g (fun s' g' => k s' ((name, consumed s s') :: g'))
  end.

(** [pattern.match(s)]: the groups and the unmatched rest of [s]. *)
Definition match_ (r : regex) (s : string) : option (groups * string) :=
  run r s [] (fun s' g => Some (g, s')).

(** [pattern.search(s)]: the leftmost match. *)
Fixpoint search (r : regex) (s : string) : option (groups * string) :=
  match match_ r s with
  | Some m => Some m
  | None =>
      match s with
      | String _ s' => search r s'
      | EmptyString => None
      end
  end.

End Matcher.

(** A run of literal characters. *)
Fixpoint lit (s : string) : regex :=
  match s with
  | EmptyString => Empty
  | String a s' => Cat (Set_ (Lit a)) (lit s')
  end.

(** Alternatives, tried from left to right. *)
Fixpoint alt (rs : list regex) : regex :=
  match rs with
  | [] => Empty
  | [r] => r
  | r :: rs' => Or r (alt rs')
  end.

Fixpoint cat (rs : list regex) : regex :=
  match rs with
  | [] => Empty
  | [r] => r
  | r :: rs' => Cat r (cat rs')
  end.

Definition plus (c : cset) : regex := Repeat c 1 None.
Definition times (c : cset) (n : nat) : regex := Repeat c n (Some n).
Definition range (c : cset) (lo hi : nat) : regex := Repeat c lo (Some hi).

End Re.

Import Re.

(** [r'From (\S+) (\w{3}\s+\w{3}\s+\d{1,2}\s+\d{2}:\d{2}:\d{2}\s+\d{4})'] *)
Definition pattern : regex :=
  cat [ lit "From ";
        Group "1" (plus NonSpace);
        lit " ";
        Group "2"
          (cat [ times Word 3; plus Space;
                 times Word 3; plus Space;
                 range Digit 1 2; plus Space;
                 times Digit 2; lit ":"; times Digit 2; lit ":";
                 times Digit 2; plus Space;
                 times Digit 4 ]) ].

(** [match = pattern.search(line)] followed by [match.groups()]. *)
Definition pattern_search (line : string) : option (string * string) :=
  match search false pattern line with
  | Some (g, _) =>
      match group "1" g, group "2" g with
      | Some email, Some date_str => Some (email, date_str)
      | _, _ => None
      end
  | None => None
  end.

(** ** [datetime] *)

Record datetime : Type := mk_datetime
  { year : Z; month : Z; day : Z; hour : Z; minute : Z; second : Z }.

Module Datetime.

Definition MINYEAR : Z := 1.
Definition MAXYEAR : Z := 9999.

Definition is_leap (y : Z) : bool :=
  (y mod 4 =? 0) && (negb (y mod 100 =? 0) || (y mod 400 =? 0)).

Definition days_in_month (y m : Z) : Z :=
  if m =? 2 then (if is_leap y then 29 else 28)
  else if (m =? 4) || (m =? 6) || (m =? 9) || (m =? 11) then 30
  else 31.

Definition within (lo x hi : Z) : bool := (lo <=? x) && (x <=? hi).

(** [_check_date_fields] *)
Definition check_date_fields (y m d : Z) : result unit :=
  if negb (within MINYEAR y MAXYEAR) then
    Raise (ValueError "year must be in 1..9999")
  else if negb (within 1 m 12) then
    Raise (ValueError "month must be in 1..12")
  else if negb (within 1 d (days_in_month y m)) then
    Raise (ValueError "day is out of range for month")
  else Ok tt.

(** [_check_time_fields] *)
Definition check_time_fields (H M S : Z) : result unit :=
  if negb (within 0 H 23) then Raise (ValueError "hour must be in 0..23")
  else if negb (within 0 M 59) then
    Raise (ValueError "minute must be in 0..59")
  else if negb (within 0 S 59) then
    Raise (ValueError "second must be in 0..59")
  else Ok tt.

(** [datetime(year, month, day, hour, minute, second)] *)
Definition new (y m d H M S : Z) : result datetime :=
  _ <- check_date_fields y m d ;;
  _ <- check_time_fields H M S ;;
  Ok (mk_datetime y m d H M S).

End Datetime.

(** ** [datetime.strptime] *)

Module Strptime.

Definition a_weekday : list string :=
  ["mon"; "tue"; "wed"; "thu"; "fri"; "sat"; "sun"].

Definition a_month : list string :=
  [""; "jan"; "feb"; "mar"; "apr"; "may"; "jun";
   "jul"; "aug"; "sep"; "oct"; "nov"; "dec"].

Definition chr (s : string) : ascii :=
  match s with
  | String a _ => a
  | EmptyString => Ascii.zero
  end.

Definition digits (lo hi : string) : regex := Set_ (Range (chr lo) (chr hi)).
Definition d_ : regex := Set_ Digit.

(** [__seqToRE]: the names as alternatives (all of one length, so the
    sort by length keeps their order). *)
Definition seqToRE (names : list string) (directive : string) : regex :=
  Group directive (alt (map lit names)).

(** The entries of [TimeRE] for the directives of the two formats. *)
Definition directive (d : ascii) : result regex :=
  if Ascii.eqb d "d" then
    (* (?P<d>3[0-1]|[1-2]\d|0[1-9]|[1-9]| [1-9]) *)
    Ok (Group "d" (alt [ Cat (lit "3") (digits "0" "1");
                         Cat (digits "1" "2") d_;
                         Cat (lit "0") (digits "1" "9");
                         digits "1" "9";
                         Cat (lit " ") (digits "1" "9") ]))
  else if Ascii.eqb d "H" then
    (* (?P<H>2[0-3]|[0-1]\d|\d) *)
    Ok (Group "H" (alt [ Cat (lit "2") (digits "0" "3");
                         Cat (digits "0" "1") d_;
                         d_ ]))
  else if Ascii.eqb d "M" then
    (* (?P<M>[0-5]\d|\d) *)
    Ok (Group "M" (alt [ Cat (digits "0" "5") d_; d_ ]))
  else if Ascii.eqb d "S" then
    (* (?P<S>6[0-1]|[0-5]\d|\d) *)
    Ok (Group "S" (alt [ Cat (lit "6") (digits "0" "1");
                         Cat (digits "0" "5") d_;
                         d_ ]))
  else if Ascii.eqb d "Y" then
    (* (?P<Y>\d\d\d\d) *)
    Ok (Group "Y" (cat [d_; d_; d_; d_]))
  else if Ascii.eqb d "a" then Ok (seqToRE a_weekday "a")
  else if Ascii.eqb d "b" then Ok (seqToRE (tl a_month) "b")
  else if Ascii.eqb d "%" then Ok (lit "%")
  else Raise (ValueError "bad directive in format").

(** [TimeRE.pattern]: a run of whitespace of the format becomes [\s+], a
    directive its entry, any other character itself. [in_space] tells
    that the previous character was whitespace. *)
Fixpoint pattern_items (format : string) (in_space : bool)
  : result (list regex) :=
  match format with
  | EmptyString => Ok []
  | String a rest =>
      if Char.is_space a then
        rs <- pattern_items rest true ;;
        Ok (if in_space then rs else plus Space :: rs)
      else if Ascii.eqb a "%" then
        match rest with
        | EmptyString => Raise (ValueError "stray % in format")
        | String d rest' =>
            r <- directive d ;;
            rs <- pattern_items rest' false ;;
            Ok (r :: rs)
        end
      else
        rs <- pattern_items rest false ;;
        Ok (Set_ (Lit a) :: rs)
  end.

Definition pattern (format : string) : result regex :=
  rs <- pattern_items format false ;;
  Ok (cat rs).

(** [int(s)] on a captured group: surrounding whitespace is dropped (no
    group ends in whitespace), then decimal digits are read. *)
Fixpoint lstrip (s : string) : string :=
  match s with
  | String a s' => if Char.is_space a then lstrip s' else s
  | EmptyString => EmptyString
  end.

Fixpoint digits_value (s : string) (acc : Z) : option Z :=
  match s with
  | EmptyString => Some acc
  | String a s' =>
      if Char.is_digit a
      then digits_value s' (10 * acc + (Char.code a - 48))
      else None
  end.

Definition int (s : string) : result Z :=
  match lstrip s with
  | EmptyString => Raise (ValueError "invalid literal for int()")
  | t =>
      match digits_value t 0 with
      | Some z => Ok z
      | None => Raise (ValueError "invalid literal for int()")
      end
  end.

(** [names.index(x)] *)
Fixpoint index (names : list string) (x : string) (i : Z) : result Z :=
  match names with
  | [] => Raise (ValueError "x is not in list")
  | n :: names' => if String.eqb n x then Ok i else index names' x (i + 1)
  end.

(** A group converted by [conv], or [default] when the format has no
    such directive. *)
Definition field (g : groups) (name : string) (conv : string -> result Z)
  (default : Z) : result Z :=
  match group name g with
  | Some v => conv v
  | None => Ok default
  end.

(** [_strptime] and [_strptime_datetime] *)
Definition strptime (data_string format : string) : result datetime :=
  format_regex <- pattern format ;;
  match match_ true format_regex data_string with
  | None => Raise (ValueError "time data does not match format")
  | Some (found, rest) =>
      if negb (String.eqb rest "") then
        Raise (ValueError "unconverted data remains")
      else
        y <- field found "Y" int 1900 ;;
        m <- field found "b" (fun v => index a_month (str_lower v) 0) 1 ;;
        d <- field found "d" int 1 ;;
        H <- field found "H" int 0 ;;
        M <- field found "M" int 0 ;;
        S <- field found "S" int 0 ;;
        _ <- field found "a" (fun v => index a_weekday (str_lower v) 0) 0 ;;
        (* without a year, 29 February is looked up in 1904 *)
        let y' := match group "Y" found with
                  | None => if (m =? 2) && (d =? 29) then 1904 else y
                  | Some _ => y
                  end in
        (* julian = datetime_date(year, month, day).toordinal() - ... *)
        _ <- Datetime.check_date_fields y' m d ;;
        Datetime.new y m d H M S
  end.

End Strptime.

(** ** [datetime.strftime] *)

Module Strftime.

Definition digit (n : Z) : ascii := ascii_of_N (Z.to_N (48 + n mod 10)).

(** The decimal digits of [n], most significant first; [fuel] bounds
    their number. *)
Fixpoint dec_digits (fuel : nat) (n : Z) (acc : string) : string :=
  match fuel with
  | O => acc
  | S fuel' =>
      let acc' := String (digit n) acc in
      if n / 10 =? 0 then acc' else dec_digits fuel' (n / 10) acc'
  end.

(** [%d] of C on a year: no padding. *)
Definition dec (n : Z) : string := dec_digits 20 n "".

(** [%02d] of C on a number below 100. *)
Definition pad2 (n : Z) : string :=
  String (digit (n / 10)) (String (digit n) "").

(** The conversions of the C library for the directives of the output
    format; glibc prints [%Y] as the plain decimal number. *)
Definition conversion (dt : datetime) (d : ascii) : string :=
  if Ascii.eqb d "Y" then dec (year dt)
  else if Ascii.eqb d "m" then pad2 (month dt)
  else if Ascii.eqb d "d" then pad2 (day dt)
  else if Ascii.eqb d "H" then pad2 (hour dt)
  else if Ascii.eqb d "M" then pad2 (minute dt)
  else if Ascii.eqb d "S" then pad2 (second dt)
  else if Ascii.eqb d "%" then "%"
  else String "%" (String d "").

Fixpoint strftime (dt : datetime) (format : string) : string :=
  match format with
  | EmptyString => EmptyString
  | String a rest =>
      if Ascii.eqb a "%" then
        match rest with
        | String d rest' => conversion dt d ++ strftime dt rest'
        | EmptyString => String a EmptyString
        end
      else String a (strftime dt rest)
  end.

End Strftime.

(** ** Task 1 & 2: extract and transform *)

Inductive value : Type :=
| VNone
| VStr (s : string)
| VObjectId (n : Z).

(** A Python [dict] with string keys, in insertion order. *)
Definition dict : Type := list (string * value).

Fixpoint getitem (d : dict) (key : string) : result value :=
  match d with
  | [] => Raise (KeyError key)
  | (k, v) :: d' => if String.eqb k key then Ok v else getitem d' key
  end.

Definition LF : ascii := "010"%char.
Definition CR : ascii := "013"%char.

(** Text mode with universal newlines: [\r\n] and [\r] are read as [\n]. *)
Fixpoint universal_newlines (s : string) : string :=
  match s with
  | EmptyString => EmptyString
  | String a rest =>
      if Ascii.eqb a CR then
        match rest with
        | String b rest' =>
            if Ascii.eqb b LF then String LF (universal_newlines rest')
            else String LF (universal_newlines rest)
        | EmptyString => String LF EmptyString
        end
      else String a (universal_newlines rest)
  end.

(** The lines of a text, each with its newline, as iterating over a file
    object yields them. *)
Fixpoint readlines (s : string) : list string :=
  match s with
  | EmptyString => []
  | String a rest =>
      if Ascii.eqb a LF then String a EmptyString :: readlines rest
      else
        match readlines rest with
        | [] => [String a EmptyString]
        | l :: ls => String a l :: ls
        end
  end.

Definition file_lines (content : string) : list string :=
  readlines (universal_newlines content).

(** The body of the [for] loop on one line: [None] when the line is
    skipped, the record when one is appended. *)
Definition transform_line (line : string) : result (option dict) :=
  match pattern_search line with
  | Some (email, date_str) =>
      date_obj <-
        try_except_ValueError
          (Strptime.strptime date_str "%a %b %d %H:%M:%S %Y")
          (Strptime.strptime date_str "%a %b  %d %H:%M:%S %Y") ;;
      let formatted_date := Strftime.strftime date_obj "%Y-%m-%d %H:%M:%S" in
      Ok (Some [("email", VStr email); ("date", VStr formatted_date)])
  | None => Ok None
  end.

(** The loop, [transformed_data] being the list built so far. *)
Fixpoint extract_loop (lines : list string) (transformed_data : list dict)
  : result (list dict) :=
  match lines with
  | [] => Ok transformed_data
  | line :: lines' =>
      r <- transform_line line ;;
      match r with
      | Some rec => extract_loop lines' (transformed_data ++ [rec])
      | None => extract_loop lines' transformed_data
      end
  end.

(** [extract_and_transform(log_file)] past the decoding of the file:
    [log_file] is given by its decoded content. *)
Definition extract_and_transform (log_file : string) : result (list dict) :=
  extract_loop (file_lines log_file) [].

(** *** Opening the file in text mode *)


Module Utf8.






End Utf8.


(** ** Task 3: save data to MongoDB *)

(** The collection [log_analysis.user_history] in insertion order, and the
    source of fresh [ObjectId]s of the client. *)
Record mongo : Type := mk_mongo
  { collection : list dict; next_oid : Z }.

Module Pymongo.

Definition has_key (d : dict) (key : string) : bool :=
  existsb (fun kv => String.eqb (fst kv) key) d.

(** [collection.delete_many({})] *)
Definition delete_many (m : mongo) : mongo :=
  mk_mongo [] (next_oid m).

(** [insert_many] gives every document without an [_id] a fresh one; the
    caller's dictionary itself receives the new key. *)
Fixpoint assign_ids (documents : list dict) (oid : Z) : list dict * Z :=
  match documents with
  | [] => ([], oid)
  | d :: ds =>
      if has_key d "_id" then
        let (ds', oid') := assign_ids ds oid in ((d :: ds')%list, oid')
      else
        let (ds', oid') := assign_ids ds (oid + 1) in
        (((d ++ [("_id", VObjectId oid)]) :: ds')%list, oid')
  end.

Definition value_eqb (v w : value) : bool :=
  match v, w with
  | VNone, VNone => true
  | VStr s, VStr t => String.eqb s t
  | VObjectId a, VObjectId b => a =? b
  | _, _ => false
  end.

Definition id_of (d : dict) : value :=
  match getitem d "_id" with
  | Ok v => v
  | Raise _ => VNone
  end.

(** A stored document has its [_id] first. *)
Definition stored (d : dict) : dict :=
  ("_id", id_of d)
    :: filter (fun kv => negb (String.eqb (fst kv) "_id")) d.

(** The ordered bulk write: documents go in one by one, and the first
    one whose [_id] is already in the collection stops the write. *)
Fixpoint bulk_insert (documents : list dict) (coll : list dict)
  : result (list dict) :=
  match documents with
  | [] => Ok coll
  | d :: ds =>
      if existsb (fun c => value_eqb (id_of c) (id_of d)) coll then
        Raise (BulkWriteError "E11000 duplicate key error")
      else bulk_insert ds (coll ++ [stored d])
  end.

(** [collection.insert_many(documents)]: the documents as the caller
    sees them afterwards, and the collection. *)
Definition insert_many (documents : list dict) (m : mongo)
  : result (list dict * mongo) :=
  match documents with
  | [] => Raise (TypeError "documents must be a non-empty list")
  | _ =>
      let (documents', oid') := assign_ids documents (next_oid m) in
      coll' <- bulk_insert documents' (collection m) ;;
      Ok (documents', mk_mongo coll' oid')
  end.

(** [list(collection.find())] *)
Definition find (m : mongo) : list dict := collection m.

End Pymongo.

(** [save_to_mongodb(data)]; the progress message is left out. *)
Definition save_to_mongodb (data : list dict) (m : mongo)
  : result (list dict * mongo) :=
  let m1 := Pymongo.delete_many m in
  Pymongo.insert_many data m1.

(** ** Task 4: transfer data from MongoDB to SQLite *)

Record row : Type := mk_row
  { row_id : Z; row_email : string; row_date : string }.

(** The file [user_history.db]: the table, once created, and the largest
    [id] ever handed out ([sqlite_sequence], kept by AUTOINCREMENT). *)
Record sqlite_db : Type := mk_db
  { user_history : option (list row); sqlite_sequence : Z }.

Module Sqlite.

(** [CREATE TABLE IF NOT EXISTS user_history (...)] *)
Definition create_table_if_not_exists (db : sqlite_db) : sqlite_db :=
  match user_history db with
  | Some _ => db
  | None => mk_db (Some []) (sqlite_sequence db)
  end.

Definition table (db : sqlite_db) : result (list row) :=
  match user_history db with
  | Some rows => Ok rows
  | None => Raise (OperationalError "no such table: user_history")
  end.

(** [DELETE FROM user_history] *)
Definition delete_all (db : sqlite_db) : result sqlite_db :=
  _ <- table db ;;
  Ok (mk_db (Some []) (sqlite_sequence db)).

(** The largest identifier of a row, 2^63 - 1. *)
Definition max_rowid : Z := 9223372036854775807.

(** Binding one parameter: [sqlite3] takes a [str] or [None], a text or
    NULL. *)
Definition bind_param (v : value) : result (option string) :=
  match v with
  | VStr s => Ok (Some s)
  | VNone => Ok None
  | VObjectId _ =>
      Raise (ProgrammingError "Error binding parameter: type is not supported")
  end.

(** The [NOT NULL] constraint of a column. *)
Definition not_null (column : string) (v : option string) : result string :=
  match v with
  | Some s => Ok s
  | None => Raise (IntegrityError ("NOT NULL constraint failed: " ++ column))
  end.

Definition max_id (rows : list row) : Z :=
  fold_right (fun r acc => Z.max (row_id r) acc) 0 rows.

(** [INSERT INTO user_history (email, date) VALUES (?, ?)]: both
    parameters are bound, then the next identifier is taken (AUTOINCREMENT
    refuses once the largest one has been handed out), then the
    constraints are checked. *)
Definition insert (params : value * value) (db : sqlite_db)
  : result sqlite_db :=
  rows <- table db ;;
  e <- bind_param (fst params) ;;
  d <- bind_param (snd params) ;;
  let largest := Z.max (sqlite_sequence db) (max_id rows) in
  if max_rowid <=? largest then
    Raise (OperationalError "database or disk is full")
  else
    e' <- not_null "user_history.email" e ;;
    d' <- not_null "user_history.date" d ;;
    let new_id := largest + 1 in
    Ok (mk_db (Some (rows ++ [mk_row new_id e' d'])%list) new_id).

Fixpoint executemany (seq_of_params : list (value * value))
  (db : sqlite_db) : result sqlite_db :=
  match seq_of_params with
  | [] => Ok db
  | p :: ps => db' <- insert p db ;; executemany ps db'
  end.

End Sqlite.

(** [[(rec['email'], rec['date']) for rec in records]] *)
Fixpoint insert_data_of (records : list dict) : result (list (value * value)) :=
  match records with
  | [] => Ok []
  | rec :: records' =>
      e <- getitem rec "email" ;;
      d <- getitem rec "date" ;;
      rest <- insert_data_of records' ;;
      Ok ((e, d) :: rest)
  end.

(** [transfer_to_sqlite()]; the progress message is left out. *)
Definition transfer_to_sqlite (m : mongo) (db : sqlite_db) : result sqlite_db :=
  let records := Pymongo.find m in
  let db1 := Sqlite.create_table_if_not_exists db in
  db2 <- Sqlite.delete_all db1 ;;
  insert_data <- insert_data_of records ;;
  Sqlite.executemany insert_data db2.

(** The two stores of the pipeline. *)
Record stores : Type := mk_stores
  { primary : mongo; relational : sqlite_db }.

(** [save_to_mongodb(data)] then [transfer_to_sqlite()], as [main] calls
    them; [data] comes back as the calls leave it. *)
Definition load_stores (data : list dict) (st : stores)
  : result (list dict * stores) :=
  '(data', m') <- save_to_mongodb data (primary st) ;;
  db' <- transfer_to_sqlite m' (relational st) ;;
  Ok (data', mk_stores m' db').

(** ** Task 5: the analysis queries *)

Module Sql.

Section Grouping.

Context {K : Type}.
Variable eqb : K -> K -> bool.

(** One more row for the group of [k]. *)
Fixpoint bump (k : K) (gs : list (K * Z)) : list (K * Z) :=
  match gs with
  | [] => [(k, 1)]
  | (k', n) :: gs' =>
      if eqb k k' then (k', n + 1) :: gs' else (k', n) :: bump k gs'
  end.

(** [SELECT key, COUNT( * ) ... GROUP BY key]: one result row per
    distinct key, here in the order of first appearance (SQL leaves the
    order open). *)
Definition group_count (keys : list K) : list (K * Z) :=
  fold_left (fun gs k => bump k gs) keys [].

End Grouping.

(** A text or NULL. *)
Definition null_eqb (a b : option string) : bool :=
  match a, b with
  | None, None => true
  | Some s, Some t => String.eqb s t
  | _, _ => false
  end.

(** [instr(X, Y)]: the 1-based position of the first occurrence of [Y]
    in [X], or 0. *)
Fixpoint instr_from (x y : string) (i : Z) : Z :=
  if String.prefix y x then i
  else
    match x with
    | EmptyString => 0
    | String _ x' => instr_from x' y (i + 1)
    end.

Definition instr (x y : string) : Z := instr_from x y 1.

Fixpoint drop (n : nat) (s : string) : string :=
  match n, s with
  | S n', String _ s' => drop n' s'
  | _, _ => s
  end.

(** The text up to its first NUL character. *)
Fixpoint until_NUL (s : string) : string :=
  match s with
  | EmptyString => EmptyString
  | String a s' =>
      if Ascii.eqb a Ascii.zero then EmptyString else String a (until_NUL s')
  end.

(** [substr(X, Y)]: the characters of [X] from the [Y]-th on; a
    negative [Y] counts from the end. [substr] reads [X] up to its first
    NUL character. *)
Definition substr (x : string) (y : Z) : string :=
  let x := until_NUL x in
  if 0 <? y then drop (Z.to_nat (y - 1)) x
  else if y =? 0 then x
  else drop (String.length x - Z.to_nat (- y)) x.

(** [AVG] over a column of counts: NULL on no row, else their sum by
    their number; the exact quotient, which SQLite returns as the nearest
    REAL. *)
Definition avg (counts : list Z) : option Q :=
  match counts with
  | [] => None
  | _ => Some (Qdiv (inject_Z (fold_right Z.add 0 counts))
                    (inject_Z (Z.of_nat (length counts))))
  end.

End Sql.

Section Queries.

(** SQLite's [date(X)] on a text: a date as text, or NULL. *)
Variable sql_date : string -> option string.

(** 2. [SELECT date(date) as day, COUNT( * ) FROM user_history GROUP BY day] *)
Definition emails_per_day (rows : list row) : list (option string * Z) :=
  Sql.group_count Sql.null_eqb (map (fun r => sql_date (row_date r)) rows).

(** 4. [SELECT substr(email, instr(email, '@') + 1) as domain, COUNT( * )
       FROM user_history GROUP BY domain] *)
Definition domain (email : string) : string :=
  Sql.substr email (Sql.instr email "@" + 1).

Definition emails_per_domain (rows : list row) : list (string * Z) :=
  Sql.group_count String.eqb (map (fun r => domain (row_email r)) rows).

(** 5. [SELECT COUNT( * ) FROM user_history] *)
Definition total_number_of_emails (rows : list row) : Z :=
  Z.of_nat (length rows).

(** 10. [SELECT AVG(count) FROM (SELECT COUNT( * ) as count
         FROM user_history GROUP BY date(date))] *)
Definition average_emails_per_day (rows : list row) : option Q :=
  let subquery :=
    map snd
      (Sql.group_count Sql.null_eqb
         (map (fun r => sql_date (row_date r)) rows)) in
  Sql.avg subquery.

End Queries.

(** Query 5 on the database file. *)
Definition run_total_number_of_emails (db : sqlite_db) : result Z :=
  rows <- Sqlite.table db ;;
  Ok (total_number_of_emails rows).

Definition queries : list (string * string) :=
  [ ("1. Unique Emails",
     "SELECT DISTINCT email FROM user_history;");
    ("2. Emails per Day",
     "SELECT date(date) as day, COUNT(*) FROM user_history GROUP BY day;");
    ("3. First and Last Email per User",
     "SELECT email, MIN(date) AS first_email, MAX(date) AS last_email FROM user_history GROUP BY email;");
    ("4. Emails per Domain",
     "SELECT substr(email, instr(email, '@') + 1) as domain, COUNT(*) FROM user_history GROUP BY domain;");
    ("5. Total Number of Emails",
     "SELECT COUNT(*) FROM user_history;");
    ("6. Emails Count by Month",
     "SELECT strftime('%Y-%m', date) AS month, COUNT(*) FROM user_history GROUP BY month;");
    ("7. Email Frequency Ranking",
     "SELECT email, COUNT(*) as count FROM user_history GROUP BY email ORDER BY count DESC;");
    ("8. Most Active Day",
     "SELECT date(date) as day, COUNT(*) as count FROM user_history GROUP BY day ORDER BY count DESC LIMIT 1;");
    ("9. Emails by Day of Week",
     "SELECT strftime('%w', date) as weekday, COUNT(*) FROM user_history GROUP BY weekday;");
    ("10. Average Emails per Day",
     "SELECT AVG(count) FROM (SELECT COUNT(*) as count FROM user_history GROUP BY date(date));") ].

Definition exn_str (e : exn) : string :=
  match e with
  | ValueError m | KeyError m | TypeError m | BulkWriteError m
  | IntegrityError m | ProgrammingError m | OperationalError m => m
  end.

(** [try: ... except Exception as e: ...] *)
Definition try_except_Exception {A : Type} (m : result A)
  (h : exn -> result A) : result A :=
  match m with
  | Ok a => Ok a
  | Raise e => h e
  end.

(** What [run_sql_queries] leaves behind: the lines printed and the
    statements handed to [cursor.execute], both oldest first. *)
Record report : Type := mk_report
  { printed : list string; executed : list string }.

Section Analysis.

(** [cursor.execute(query)] followed by [cursor.fetchall()], each row as
    [print] shows it. The outcome may depend on the statements executed
    before (a lock, a dropped table). *)
Variable execute : list string -> string -> result (list string).

Definition nl : string := String LF EmptyString.

(** One turn of the loop over [queries.items()]. *)
Definition run_query (item : string * string) (rep : report)
  : result report :=
  let (desc, query) := item in
  let rep1 := mk_report (printed rep ++ [nl ++ desc ++ ":"]) (executed rep) in
  try_except_Exception
    (let rep2 := mk_report (printed rep1) (executed rep1 ++ [query]) in
     rows <- execute (executed rep1) query ;;
     Ok (mk_report (printed rep2 ++ rows) (executed rep2)))
    (fun e =>
       Ok (mk_report
             (printed rep1 ++ ["Error executing query: " ++ exn_str e])
             (executed rep1 ++ [query]))).

Fixpoint queries_loop (items : list (string * string)) (rep : report)
  : result report :=
  match items with
  | [] => Ok rep
  | item :: items' =>
      rep' <- run_query item rep ;;
      queries_loop items' rep'
  end.

(** [run_sql_queries()] *)
Definition run_sql_queries : result report :=
  queries_loop queries (mk_report [nl ++ "SQL Query Results:"] []).

(** ** Main execution flow *)

(** [main()], [mbox.txt] given by its decoded content; the progress
    messages are left out. *)
Definition main (mbox : string) (st : stores) : result (stores * report) :=
  data <- extract_and_transform mbox ;;
  '(_, st') <- load_stores data st ;;
  rep <- run_sql_queries ;;
  Ok (st', rep).

End Analysis.

(** * Vocabulary of the properties *)

(** [raises_ValueError m]: [m] returns, or raises a [ValueError]. *)
Definition raises_ValueError {A : Type} (m : result A) : Prop :=
  forall e, m = Raise e -> exists msg, e = ValueError msg.

Definition format1 : string := "%a %b %d %H:%M:%S %Y".
Definition format2 : string := "%a %b  %d %H:%M:%S %Y".

(** [has_shape shape s]: [s] has the length of [shape], a decimal digit
    wherever [shape] has a [d] and the character of [shape] elsewhere. *)
Fixpoint has_shape (shape s : string) : bool :=
  match shape, s with
  | EmptyString, EmptyString => true
  | String p shape', String a s' =>
      (if Ascii.eqb p "d" then Char.is_digit a else Ascii.eqb p a)
      && has_shape shape' s'
  | _, _ => false
  end.

Definition canonical (s : string) : bool := has_shape "dddd-dd-dd dd:dd:dd" s.

(** A [datetime] that [Datetime.new] accepts has its fields in range. *)
Definition in_range (dt : datetime) : Prop :=
  1 <= year dt <= 9999 /\ 1 <= month dt <= 12 /\ 1 <= day dt <= 31
  /\ 0 <= hour dt <= 23 /\ 0 <= minute dt <= 59 /\ 0 <= second dt <= 59.

Definition alice_line : string :=
  "From alice@example.com Mon Jan  5 09:08:07 2024".

Definition alice_record : dict :=
  [("email", VStr "alice@example.com"); ("date", VStr "2024-01-05 09:08:07")].

Definition year_999_line : string :=
  "From alice@example.com Mon Jan  5 09:08:07 0999".

Local Open Scope list_scope.

(** A document with a text under both [email] and [date]. *)
Definition is_record (d : dict) : bool :=
  match getitem d "email", getitem d "date" with
  | Ok (VStr _), Ok (VStr _) => true
  | _, _ => false
  end.

Definition text_of (v : result value) : string :=
  match v with
  | Ok (VStr s) => s
  | _ => EmptyString
  end.

(** The (sender, timestamp) pair a document carries. *)
Definition pair_of_doc (d : dict) : string * string :=
  (text_of (getitem d "email"), text_of (getitem d "date")).

Definition pair_of_row (r : row) : string * string :=
  (row_email r, row_date r).

Definition text_params (p : string * string) : value * value :=
  (VStr (fst p), VStr (snd p)).

(** The rows of the table; none while the table does not exist. *)
Definition rows_of (db : sqlite_db) : list row :=
  match user_history db with
  | Some rows => rows
  | None => []
  end.

Definition two_documents : mongo :=
  mk_mongo
    [ [("_id", VObjectId 7); ("email", VStr "alice@example.com");
       ("date", VStr "2024-01-05 09:08:07")];
      [("_id", VObjectId 8); ("email", VStr "bob@example.com");
       ("date", VStr "2024-01-15 23:59:59")] ]
    9.

Definition old_table : sqlite_db :=
  mk_db (Some [mk_row 1 "old@example.com" "2023-12-31 00:00:00"]) 1.

Definition record_dict (p : string * string) : dict :=
  [("email", VStr (fst p)); ("date", VStr (snd p))].

(** A record after [insert_many] gave it the identifier [n]. *)
Definition with_id (n : Z) (p : string * string) : dict :=
  [("email", VStr (fst p)); ("date", VStr (snd p)); ("_id", VObjectId n)].

(** The same record as the collection holds it. *)
Definition stored_doc (n : Z) (p : string * string) : dict :=
  [("_id", VObjectId n); ("email", VStr (fst p)); ("date", VStr (snd p))].

(** [f n x0; f (n+1) x1; ...] *)
Fixpoint number {A B : Type} (f : Z -> A -> B) (n : Z) (l : list A) : list B :=
  match l with
  | [] => []
  | x :: l' => f n x :: number f (n + 1) l'
  end.

(** Every identifier in the collection is an [ObjectId] below [n]. *)
Definition ids_below (n : Z) (coll : list dict) : Prop :=
  Forall (fun c => exists i, Pymongo.id_of c = VObjectId i /\ i < n) coll.

Definition table_pairs (st : stores) : list (string * string) :=
  map pair_of_row (rows_of (relational st)).

(** The two steps, then the two steps again on the same list [data]
    (whose dictionaries [insert_many] has meanwhile given an [_id]). *)
Definition load_twice (data : list dict) (st : stores)
  : result (list dict * stores) :=
  '(data1, st1) <- load_stores data st ;;
  load_stores data1 st1.

(** The two steps, then the two steps on a fresh extraction of the same
    records, as a second run of the script does. *)
Definition load_again (data : list dict) (st : stores)
  : result (list dict * stores) :=
  '(_, st1) <- load_stores data st ;;
  load_stores data st1.

Definition two_lines : string :=
  ("From alice@example.com Mon Jan  5 09:08:07 2024" ++ String LF ""
   ++ "From bob@example.com Tue Jan 15 23:59:59 2024" ++ String LF "")%string.

Definition two_records : list dict :=
  [ alice_record;
    [("email", VStr "bob@example.com"); ("date", VStr "2024-01-15 23:59:59")] ].

Definition used_stores : stores := mk_stores two_documents old_table.

(** ** What the analysis runner is expected to print *)

Section Reporting.

Variable execute : list string -> string -> result (list string).

(** What one query adds to the output: its label, then its rows or the
    one line of its error; [history] holds the statements executed so
    far. *)
Fixpoint expected_output (items : list (string * string))
  (history : list string) : list string :=
  match items with
  | [] => []
  | (desc, query) :: items' =>
      ((nl ++ desc ++ ":")%string
       :: match execute history query with
          | Ok rows => rows
          | Raise e => [("Error executing query: " ++ exn_str e)%string]
          end)
      ++ expected_output items' (history ++ [query])
  end.

End Reporting.

(** ** Counting by key *)

Section Counting.

Context {K : Type}.
Variable eqb : K -> K -> bool.

Definition total (gs : list (K * Z)) : Z := fold_right Z.add 0 (map snd gs).

(** The count the groups hold for [k], 0 when [k] has no group. *)
Fixpoint lookup (k : K) (gs : list (K * Z)) : Z :=
  match gs with
  | [] => 0
  | (k', n) :: gs' => if eqb k k' then n else lookup k gs'
  end.

(** The number of occurrences of [k] among [keys]. *)
Definition occurrences (k : K) (keys : list K) : Z :=
  Z.of_nat (length (filter (eqb k) keys)).

End Counting.

Definition day_dec (a b : option string) : {a = b} + {a <> b}.
Proof. decide equality. apply string_dec. Defined.

(** The distinct values of [date(date)] in the table: the dates SQLite
    reads, and NULL as one more value when it cannot read the date of
    some row. *)
Definition date_values (sql_date : string -> option string)
  (rows : list row) : list (option string) :=
  nodup day_dec (map (fun r => sql_date (row_date r)) rows).

(** On a canonical timestamp, [date(X)] is its first ten characters. *)
Definition date_prefix (s : string) : option string := Some (substring 0 10 s).

Definition three_rows : list row :=
  [ mk_row 1 "alice@example.com" "2024-01-05 09:08:07";
    mk_row 2 "bob@example.org" "2024-01-05 23:59:59";
    mk_row 3 "carol@example.com" "2024-01-15 10:00:00" ].

(** The text strictly after the first ["@"] of [s], if [s] has one. *)
Fixpoint after_first_at (s : string) : option string :=
  match s with
  | EmptyString => None
  | String a s' => if Ascii.eqb a "@" then Some s' else after_first_at s'
  end.

(** ** What a match consists of *)

(** Every character of [s] satisfies [p]. *)
Fixpoint str_forallb (p : ascii -> bool) (s : string) : bool :=
  match s with
  | EmptyString => true
  | String a s' => p a && str_forallb p s'
  end.

(** [matches ic r w g]: the text [w] is in the language of [r] (under
    [re.IGNORECASE] when [ic]), and [g] are the groups it fills, latest
    first. *)
Inductive matches (ic : bool) : regex -> string -> groups -> Prop :=
| M_Empty : matches ic Empty EmptyString []
| M_Set (c : cset) (a : ascii) :
    accepts ic c a = true -> matches ic (Set_ c) (String a EmptyString) []
| M_Cat (r1 r2 : regex) (w1 w2 : string) (g1 g2 : groups) :
    matches ic r1 w1 g1 -> matches ic r2 w2 g2 ->
    matches ic (Cat r1 r2) (w1 ++ w2)%string (g2 ++ g1)
| M_Or_left (r1 r2 : regex) (w : string) (g : groups) :
    matches ic r1 w g -> matches ic (Or r1 r2) w g
| M_Or_right (r1 r2 : regex) (w : string) (g : groups) :
    matches ic r2 w g -> matches ic (Or r1 r2) w g
| M_Repeat (c : cset) (lo : nat) (hi : option nat) (w : string) :
    str_forallb (accepts ic c) w = true ->
    (lo <= String.length w)%nat ->
    match hi with
    | Some h => (String.length w <= h)%nat
    | None => True
    end ->
    matches ic (Repeat c lo hi) w []
| M_Group (name : string) (r : regex) (w : string) (g : groups) :
    matches ic r w g -> matches ic (Group name r) w ((name, w) :: g).

(** [r] has no group. *)
Fixpoint no_groups (r : regex) : bool :=
  match r with
  | Empty | Set_ _ | Repeat _ _ _ => true
  | Cat r1 r2 | Or r1 r2 => no_groups r1 && no_groups r2
  | Group _ _ => false
  end.

(** The last character of [s] is a line feed. *)
Fixpoint ends_with_LF (s : string) : bool :=
  match s with
  | EmptyString => false
  | String a EmptyString => Ascii.eqb a LF
  | String _ s' => ends_with_LF s'
  end.

(** The output format of [extract_and_transform]. *)
Definition output_format : string := "%Y-%m-%d %H:%M:%S".

(** A document with a text or [None] under both [email] and [date]. *)
Definition is_nullable_record (d : dict) : bool :=
  match getitem d "email", getitem d "date" with
  | Ok (VStr _ | VNone), Ok (VStr _ | VNone) => true
  | _, _ => false
  end.

(** The row a record becomes when it is given the identifier [i]. *)
Definition row_of (i : Z) (p : string * string) : row :=
  mk_row i (fst p) (snd p).

Definition a_document_without_date : mongo :=
  mk_mongo
    [ [("_id", VObjectId 7); ("email", VStr "alice@example.com");
       ("date", VStr "2024-01-05 09:08:07")];
      [("_id", VObjectId 8); ("email", VStr "bob@example.com")] ]
    9.

Definition a_document_with_None : mongo :=
  mk_mongo
    [ [("_id", VObjectId 7); ("email", VStr "alice@example.com");
       ("date", VStr "2024-01-05 09:08:07")];
      [("_id", VObjectId 8); ("email", VStr "bob@example.com");
       ("date", VNone)] ]
    9.

(** What [rec['email'], rec['date']] holds, [None] standing in for a
    missing key. *)
Definition value_of (v : result value) : value :=
  match v with
  | Ok x => x
  | Raise _ => VNone
  end.

Definition params_of_doc (d : dict) : value * value :=
  (value_of (getitem d "email"), value_of (getitem d "date")).

Definition is_text_pair (p : value * value) : bool :=
  match p with
  | (VStr _, VStr _) => true
  | _ => false
  end.

Definition is_nullable_pair (p : value * value) : bool :=
  match p with
  | ((VStr _ | VNone), (VStr _ | VNone)) => true
  | _ => false
  end.

(** ** Room for new rows, NUL-free texts, calendar days *)

(** The identifiers left suffice for [n] more rows. *)
Definition has_room (db : sqlite_db) (n : nat) : Prop :=
  Z.max 0 (sqlite_sequence db) + Z.of_nat n <= Sqlite.max_rowid.

(** [s] has no NUL character. *)
Definition no_NUL (s : string) : bool :=
  str_forallb (fun a => negb (Ascii.eqb a Ascii.zero)) s.

(** The date part of a timestamp: its text before the first space. *)
Fixpoint day_part (ts : string) : string :=
  match ts with
  | EmptyString => EmptyString
  | String a ts' =>
      if Ascii.eqb a " " then EmptyString else String a (day_part ts')
  end.

(** The calendar days of the timestamps of the table, each once. *)
Definition calendar_days (rows : list row) : list string :=
  nodup string_dec (map (fun r => day_part (row_date r)) rows).

(** SQLite's [date(X)] on the timestamps the extraction writes (a year
    of one to four digits, then [-MM-DD HH:MM:SS] of a date that exists):
    the date part when the year has four digits, NULL otherwise. *)
Definition date_of_timestamp (ts : string) : option string :=
  if canonical ts then Some (substring 0 10 ts) else None.

Definition short_year_rows : list row :=
  [ mk_row 1 "alice@example.com" "999-01-05 09:08:07";
    mk_row 2 "bob@example.com" "998-01-05 09:08:07";
    mk_row 3 "carol@example.com" "2024-01-05 09:08:07" ].

(** The sender [a NUL @ b]. *)
Definition sender_with_NUL : string :=
  String "a" (String Ascii.zero (String "@" (String "b" EmptyString))).

(** A table whose identifiers leave room for two more rows. *)
Definition nearly_full_table : sqlite_db :=
  mk_db (Some []) (Sqlite.max_rowid - 2).

Definition full_table : sqlite_db := mk_db (Some []) Sqlite.max_rowid.


(** * Properties *)

Local Open Scope string_scope.
Local Open Scope Z_scope.

(** ** The [result] monad *)

Lemma bind_Ok {A B : Type} (m : result A) (f : A -> result B) (b : B) :
  bind m f = Ok b -> exists a, m = Ok a /\ f a = Ok b.
Proof.
  destruct m as [a | e]; simpl; intro H; [eauto | discriminate].
Qed.

Lemma bind_Raise {A B : Type} (m : result A) (f : A -> result B) (e : exn) :
  bind m f = Raise e -> m = Raise e \/ exists a, m = Ok a /\ f a = Raise e.
Proof.
  destruct m as [a | e']; simpl; intro H; [right; eauto | left; congruence].
Qed.

Lemma raises_ValueError_Ok {A : Type} (a : A) : raises_ValueError (Ok a).
Proof. intros e H; discriminate. Qed.

Lemma raises_ValueError_Raise {A : Type} (msg : string) :
  raises_ValueError (@Raise A (ValueError msg)).
Proof. intros e H; injection H as <-; eauto. Qed.

Lemma raises_ValueError_bind {A B : Type} (m : result A) (f : A -> result B) :
  raises_ValueError m -> (forall a, raises_ValueError (f a)) ->
  raises_ValueError (bind m f).
Proof.
  intros Hm Hf e H. destruct (bind_Raise _ _ _ H) as [H1 | (a & _ & H2)].
  - exact (Hm e H1).
  - exact (Hf a e H2).
Qed.

Create HintDb exn.
#[local] Hint Resolve raises_ValueError_Ok raises_ValueError_Raise : exn.

(** ** [strptime] raises nothing but [ValueError] *)

Lemma int_ValueError (s : string) : raises_ValueError (Strptime.int s).
Proof.
  unfold Strptime.int. destruct (Strptime.lstrip s); auto with exn.
  destruct (Strptime.digits_value _ _); auto with exn.
Qed.

Lemma index_ValueError (names : list string) (x : string) (i : Z) :
  raises_ValueError (Strptime.index names x i).
Proof.
  revert i; induction names as [| n names IH]; intro i; simpl.
  - auto with exn.
  - destruct (String.eqb n x); auto with exn.
Qed.

Lemma field_ValueError (g : groups) (name : string)
  (conv : string -> result Z) (default : Z) :
  (forall v, raises_ValueError (conv v)) ->
  raises_ValueError (Strptime.field g name conv default).
Proof.
  intro H. unfold Strptime.field. destruct (group name g); auto with exn.
Qed.

Lemma check_date_fields_ValueError (y m d : Z) :
  raises_ValueError (Datetime.check_date_fields y m d).
Proof.
  unfold Datetime.check_date_fields.
  repeat match goal with |- context [if ?b then _ else _] => destruct b end;
    auto with exn.
Qed.

Lemma check_time_fields_ValueError (H M S : Z) :
  raises_ValueError (Datetime.check_time_fields H M S).
Proof.
  unfold Datetime.check_time_fields.
  repeat match goal with |- context [if ?b then _ else _] => destruct b end;
    auto with exn.
Qed.

Lemma new_ValueError (y m d H M S : Z) :
  raises_ValueError (Datetime.new y m d H M S).
Proof.
  unfold Datetime.new.
  apply raises_ValueError_bind; [apply check_date_fields_ValueError |].
  intros _. apply raises_ValueError_bind; [apply check_time_fields_ValueError |].
  intros _. auto with exn.
Qed.

Lemma directive_ValueError (d : ascii) : raises_ValueError (Strptime.directive d).
Proof.
  unfold Strptime.directive.
  repeat match goal with |- context [if ?b then _ else _] => destruct b end;
    auto with exn.
Qed.

Lemma pattern_items_ValueError (format : string) :
  forall in_space, raises_ValueError (Strptime.pattern_items format in_space).
Proof.
  assert (G : forall n format, (String.length format <= n)%nat -> forall b,
             raises_ValueError (Strptime.pattern_items format b)).
  { induction n as [| n IH]; intros [| a rest] Hlen b; simpl in *;
      auto with exn; try lia.
    destruct (Char.is_space a).
    - apply raises_ValueError_bind; [apply IH; lia | auto with exn].
    - destruct (Ascii.eqb a "%").
      + destruct rest as [| d rest']; auto with exn.
        apply raises_ValueError_bind; [apply directive_ValueError |].
        intros r. apply raises_ValueError_bind; [| auto with exn].
        apply IH. simpl in Hlen. lia.
      + apply raises_ValueError_bind; [apply IH; lia | auto with exn]. }
  intro b. apply (G (String.length format)). lia.
Qed.

Lemma strptime_ValueError (data_string format : string) :
  raises_ValueError (Strptime.strptime data_string format).
Proof.
  unfold Strptime.strptime.
  apply raises_ValueError_bind.
  { unfold Strptime.pattern. apply raises_ValueError_bind;
      [apply pattern_items_ValueError | auto with exn]. }
  intros re. destruct (match_ true re data_string) as [[found rest] |];
    [| auto with exn].
  destruct (negb (rest =? "")%string); [auto with exn |].
  repeat (apply raises_ValueError_bind;
          [ first [ apply field_ValueError; intro;
                    first [apply int_ValueError | apply index_ValueError]
                  | apply check_date_fields_ValueError
                  | apply check_time_fields_ValueError ]
          | intro ]).
  auto with exn.
Qed.

(** ** The two formats *)

(** Both formats become the same regular expression: the two spaces of the
    second are one run of whitespace, as the single space of the first. *)
Lemma formats_same_pattern : Strptime.pattern format2 = Strptime.pattern format1.
Proof. reflexivity. Qed.

Lemma strptime_format2 (date_str : string) :
  Strptime.strptime date_str format2 = Strptime.strptime date_str format1.
Proof. unfold Strptime.strptime. rewrite formats_same_pattern. reflexivity. Qed.

(** ** The loop of [extract_and_transform] *)

Lemma extract_loop_app (before after : list string) :
  forall acc acc',
    extract_loop before acc = Ok acc' ->
    extract_loop (before ++ after) acc = extract_loop after acc'.
Proof.
  induction before as [| l before IH]; intros acc acc' H; simpl in *.
  - injection H as <-. reflexivity.
  - destruct (transform_line l) as [[rec |] | e]; simpl in *;
      try discriminate; eauto.
Qed.

Lemma extract_loop_app_Raise (before after : list string) :
  forall acc e,
    extract_loop before acc = Raise e ->
    extract_loop (before ++ after) acc = Raise e.
Proof.
  induction before as [| l before IH]; intros acc e H; simpl in *.
  - discriminate.
  - destruct (transform_line l) as [[rec |] | e']; simpl in *; eauto.
Qed.

Lemma transform_line_no_match (line : string) :
  pattern_search line = None -> transform_line line = Ok None.
Proof. intro H. unfold transform_line. rewrite H. reflexivity. Qed.


(** ** The shape of a timestamp *)

Lemma has_shape_length (shape : string) :
  forall s, has_shape shape s = true -> String.length s = String.length shape.
Proof.
  induction shape as [| p shape IH]; intros [| a s] H; simpl in *;
    try discriminate; auto.
  apply andb_true_iff in H as [_ H]. f_equal. auto.
Qed.

Lemma has_shape_app (p1 p2 s1 s2 : string) :
  has_shape p1 s1 = true -> has_shape p2 s2 = true ->
  has_shape (p1 ++ p2) (s1 ++ s2) = true.
Proof.
  revert s1; induction p1 as [| p p1 IH]; intros [| a s1] H1 H2; simpl in *;
    try discriminate; auto.
  apply andb_true_iff in H1 as [Ha H1]. rewrite Ha. simpl. auto.
Qed.

Lemma digit_is_digit (n : Z) : Char.is_digit (Strftime.digit n) = true.
Proof.
  unfold Strftime.digit.
  assert (H : 0 <= n mod 10 < 10) by (apply Z.mod_pos_bound; lia).
  assert (C : n mod 10 = 0 \/ n mod 10 = 1 \/ n mod 10 = 2 \/ n mod 10 = 3
              \/ n mod 10 = 4 \/ n mod 10 = 5 \/ n mod 10 = 6
              \/ n mod 10 = 7 \/ n mod 10 = 8 \/ n mod 10 = 9) by lia.
  repeat destruct C as [C | C]; rewrite C; reflexivity.
Qed.

Lemma pad2_shape (n : Z) : has_shape "dd" (Strftime.pad2 n) = true.
Proof.
  unfold Strftime.pad2. simpl. rewrite !digit_is_digit. reflexivity.
Qed.

Lemma dec_shape (y : Z) :
  1000 <= y <= 9999 -> has_shape "dddd" (Strftime.dec y) = true.
Proof.
  intro H. unfold Strftime.dec.
  assert (H1 : (y / 10 =? 0) = false) by (apply Z.eqb_neq; Z.to_euclidean_division_equations; lia).
  assert (H2 : (y / 10 / 10 =? 0) = false) by (apply Z.eqb_neq; Z.to_euclidean_division_equations; lia).
  assert (H3 : (y / 10 / 10 / 10 =? 0) = false) by (apply Z.eqb_neq; Z.to_euclidean_division_equations; lia).
  assert (H4 : (y / 10 / 10 / 10 / 10 =? 0) = true) by (apply Z.eqb_eq; Z.to_euclidean_division_equations; lia).
  cbn [Strftime.dec_digits]. rewrite H1, H2, H3, H4.
  simpl. rewrite !digit_is_digit. reflexivity.
Qed.

Lemma days_in_month_le (y m : Z) : Datetime.days_in_month y m <= 31.
Proof.
  unfold Datetime.days_in_month.
  repeat match goal with |- context [if ?b then _ else _] => destruct b end;
    lia.
Qed.

Lemma new_in_range (y m d H M S : Z) (dt : datetime) :
  Datetime.new y m d H M S = Ok dt -> in_range dt.
Proof.
  unfold Datetime.new, Datetime.check_date_fields, Datetime.check_time_fields,
    Datetime.within, Datetime.MINYEAR, Datetime.MAXYEAR.
  pose proof (days_in_month_le y m) as Hd.
  repeat match goal with
         | |- context [negb ?b] => destruct b eqn:?; simpl
         end; try discriminate.
  intro E; injection E as <-. unfold in_range; simpl.
  repeat match goal with
         | H : (_ && _)%bool = true |- _ => apply andb_true_iff in H as [? ?]
         | H : (_ <=? _) = true |- _ => apply Z.leb_le in H
         end.
  lia.
Qed.

Lemma strptime_in_range (data_string format : string) (dt : datetime) :
  Strptime.strptime data_string format = Ok dt -> in_range dt.
Proof.
  unfold Strptime.strptime. intro H.
  apply bind_Ok in H as (re & _ & H).
  destruct (match_ true re data_string) as [[found rest] |]; [| discriminate].
  destruct (negb (rest =? "")%string); [discriminate |].
  do 8 (apply bind_Ok in H as (? & _ & H)).
  eapply new_in_range; eassumption.
Qed.

(** From the year 1000 on, the timestamp has the documented shape. *)
Lemma strftime_canonical (dt : datetime) :
  in_range dt -> 1000 <= year dt ->
  canonical (Strftime.strftime dt "%Y-%m-%d %H:%M:%S") = true.
Proof.
  intros (Hy & _) Hy'. unfold canonical.
  change (Strftime.strftime dt "%Y-%m-%d %H:%M:%S")
    with (Strftime.dec (year dt) ++ "-" ++ Strftime.pad2 (month dt) ++ "-"
          ++ Strftime.pad2 (day dt) ++ " " ++ Strftime.pad2 (hour dt) ++ ":"
          ++ Strftime.pad2 (minute dt) ++ ":" ++ Strftime.pad2 (second dt)
          ++ "")%string.
  change "dddd-dd-dd dd:dd:dd"
    with ("dddd" ++ "-" ++ "dd" ++ "-" ++ "dd" ++ " " ++ "dd" ++ ":"
          ++ "dd" ++ ":" ++ "dd" ++ "")%string.
  repeat (apply has_shape_app;
          [first [apply dec_shape; lia | apply pad2_shape | reflexivity] |]).
  reflexivity.
Qed.

Lemma length_append (s1 s2 : string) :
  String.length (s1 ++ s2) = (String.length s1 + String.length s2)%nat.
Proof. induction s1 as [| a s1 IH]; simpl; [reflexivity | rewrite IH; lia]. Qed.

Lemma dec_length_below_1000 (y : Z) :
  1 <= y <= 999 -> (String.length (Strftime.dec y) <= 3)%nat.
Proof.
  intro H. unfold Strftime.dec. cbn [Strftime.dec_digits].
  destruct (y / 10 =? 0); [simpl; lia |].
  destruct (y / 10 / 10 =? 0); [simpl; lia |].
  assert (H3 : (y / 10 / 10 / 10 =? 0) = true)
    by (apply Z.eqb_eq; Z.to_euclidean_division_equations; lia).
  rewrite H3. simpl. lia.
Qed.

(** Below the year 1000 the timestamp is shorter than 19 characters. *)
Lemma strftime_short_below_1000 (dt : datetime) :
  in_range dt -> year dt < 1000 ->
  (String.length (Strftime.strftime dt "%Y-%m-%d %H:%M:%S") < 19)%nat.
Proof.
  intros (Hy & _) Hy'.
  change (Strftime.strftime dt "%Y-%m-%d %H:%M:%S")
    with (Strftime.dec (year dt)
          ++ ("-" ++ Strftime.pad2 (month dt) ++ "-"
              ++ Strftime.pad2 (day dt) ++ " " ++ Strftime.pad2 (hour dt)
              ++ ":" ++ Strftime.pad2 (minute dt) ++ ":"
              ++ Strftime.pad2 (second dt) ++ ""))%string.
  rewrite length_append.
  pose proof (dec_length_below_1000 (year dt)) as Hd. simpl. lia.
Qed.

Lemma timestamp_canonical_from_1000 (line email date_str : string)
  (dt : datetime) :
  pattern_search line = Some (email, date_str) ->
  Strptime.strptime date_str format1 = Ok dt ->
  1000 <= year dt ->
  exists ts,
    transform_line line = Ok (Some [("email", VStr email); ("date", VStr ts)])
    /\ canonical ts = true /\ String.length ts = 19%nat.
Proof.
  intros Hs Hp Hy. unfold transform_line. rewrite Hs.
  change "%a %b %d %H:%M:%S %Y" with format1. rewrite Hp. simpl.
  eexists; split; [reflexivity |].
  pose proof (strftime_canonical dt (strptime_in_range _ _ _ Hp) Hy) as Hc.
  split; [exact Hc | exact (has_shape_length _ _ Hc)].
Qed.

(** ** Claims on [extract_and_transform] *)

(** C1, as amended: a file holding the line
    ["From alice@example.com Mon Jan  5 09:08:07 2024"] (with or without
    its newline) gives exactly one record, sender ["alice@example.com"] and
    timestamp ["2024-01-05 09:08:07"]; the date string is parsed by the
    first format already, whose single space stands for any run of
    whitespace, so the second format is not tried. *)
Theorem extract_alice_line :
  extract_and_transform alice_line = Ok [alice_record]
  /\ extract_and_transform (alice_line ++ String LF "") = Ok [alice_record]
  /\ pattern_search alice_line
     = Some ("alice@example.com", "Mon Jan  5 09:08:07 2024")
  /\ Strptime.strptime "Mon Jan  5 09:08:07 2024" format1
     = Ok (mk_datetime 2024 1 5 9 8 7).
Proof. repeat split; vm_compute; reflexivity. Qed.

(** C1, as stated, fails: the record is produced, but not through the
    retry, since the first [strptime] call does not raise. *)
Lemma extract_alice_line_no_retry :
  ~ (extract_and_transform alice_line = Ok [alice_record]
     /\ exists e,
          Strptime.strptime "Mon Jan  5 09:08:07 2024" format1 = Raise e).
Proof. intros [_ [e H]]. vm_compute in H. discriminate. Qed.

(** C2 fails on a year below 1000: the line matches the pattern and its
    date parses under the first format, yet the timestamp is
    ["999-01-05 09:08:07"], 18 characters with a 3-digit year. *)
Theorem year_below_1000_not_padded :
  pattern_search year_999_line
  = Some ("alice@example.com", "Mon Jan  5 09:08:07 0999")
  /\ Strptime.strptime "Mon Jan  5 09:08:07 0999" format1
     = Ok (mk_datetime 999 1 5 9 8 7)
  /\ extract_and_transform year_999_line
     = Ok [[("email", VStr "alice@example.com");
            ("date", VStr "999-01-05 09:08:07")]]
  /\ String.length "999-01-05 09:08:07" = 18%nat
  /\ canonical "999-01-05 09:08:07" = false.
Proof. repeat split; vm_compute; reflexivity. Qed.

(** C3: when a line of the file matches the pattern and its date string
    fails under both formats, [extract_and_transform] raises the
    [ValueError] of the second [strptime] call (the lines before it
    having been processed), and returns no list at all. *)
Theorem date_format_exhaustion_aborts :
  forall (content : string) (before after : list string) (line : string)
         (acc : list dict) (email date_str : string) (e1 e2 : exn),
    file_lines content = (before ++ line :: after)%list ->
    extract_loop before [] = Ok acc ->
    pattern_search line = Some (email, date_str) ->
    Strptime.strptime date_str format1 = Raise e1 ->
    Strptime.strptime date_str format2 = Raise e2 ->
    extract_and_transform content = Raise e2
    /\ exists msg, e2 = ValueError msg.
Proof.
  intros content before after line acc email date_str e1 e2 Hl Hb Hs H1 H2.
  destruct (strptime_ValueError _ _ _ H1) as [m1 ->].
  split; [| exact (strptime_ValueError _ _ _ H2)].
  unfold extract_and_transform. rewrite Hl.
  rewrite (extract_loop_app _ _ _ _ Hb). simpl.
  unfold transform_line. rewrite Hs.
  change "%a %b %d %H:%M:%S %Y" with format1.
  change "%a %b  %d %H:%M:%S %Y" with format2.
  rewrite H1, H2. reflexivity.
Qed.

Lemma date_format_exhaustion_aborts_witness :
  extract_and_transform
    ("From bob@example.com Tue Jan 15 23:59:59 2024" ++ String LF ""
     ++ "From carol@example.com Xyz Jan  5 09:08:07 2024" ++ String LF ""
     ++ "From dave@example.com Wed Jan 17 10:00:00 2024" ++ String LF "")
  = Raise (ValueError "time data does not match format")
  /\ exists msg, ValueError "time data does not match format" = ValueError msg.
Proof.
  apply (date_format_exhaustion_aborts _
           ["From bob@example.com Tue Jan 15 23:59:59 2024" ++ String LF ""]
           ["From dave@example.com Wed Jan 17 10:00:00 2024" ++ String LF ""]
           ("From carol@example.com Xyz Jan  5 09:08:07 2024" ++ String LF "")
           [[("email", VStr "bob@example.com");
             ("date", VStr "2024-01-15 23:59:59")]]
           "carol@example.com" "Xyz Jan  5 09:08:07 2024"
           (ValueError "time data does not match format")
           (ValueError "time data does not match format"));
    vm_compute; reflexivity.
Defined.





(** ** The stores *)

Local Open Scope list_scope.

Lemma insert_data_of_records (records : list dict) :
  forallb is_record records = true ->
  insert_data_of records = Ok (map text_params (map pair_of_doc records)).
Proof.
  induction records as [| d records IH]; simpl; intro H; [reflexivity |].
  apply andb_true_iff in H as [Hd H]. rewrite (IH H).
  unfold is_record in Hd. unfold pair_of_doc, text_params.
  destruct (getitem d "email") as [[| e |] |]; try discriminate.
  destruct (getitem d "date") as [[| t |] |]; try discriminate.
  reflexivity.
Qed.

Lemma max_id_nonneg (rows : list row) : 0 <= Sqlite.max_id rows.
Proof.
  unfold Sqlite.max_id. induction rows as [| r rows IH]; simpl; lia.
Qed.

Lemma max_id_app (rows : list row) (r : row) :
  Sqlite.max_id (rows ++ [r]) = Z.max (Sqlite.max_id rows) (Z.max (row_id r) 0).
Proof.
  unfold Sqlite.max_id. induction rows as [| x rows IH]; simpl; [lia |].
  rewrite IH. lia.
Qed.

(** [executemany] on texts: the rows get the identifiers that follow the
    largest one, unless these run out. *)
Lemma executemany_pairs (ps : list (string * string)) :
  forall (rows : list row) (seq : Z),
    Sqlite.executemany (map text_params ps) (mk_db (Some rows) seq)
    = match ps with
      | [] => Ok (mk_db (Some rows) seq)
      | _ =>
          let largest := Z.max seq (Sqlite.max_id rows) in
          if largest + Z.of_nat (length ps) <=? Sqlite.max_rowid then
            Ok (mk_db (Some (rows ++ number row_of (largest + 1) ps))
                      (largest + Z.of_nat (length ps)))
          else Raise (OperationalError "database or disk is full")
      end.
Proof.
  induction ps as [| p ps IH]; intros rows seq; [reflexivity |].
  cbn [map Sqlite.executemany]. unfold Sqlite.insert.
  cbn [Sqlite.table user_history sqlite_sequence bind text_params fst snd
       Sqlite.bind_param Sqlite.not_null].
  cbv zeta. set (largest := Z.max seq (Sqlite.max_id rows)).
  pose proof (max_id_nonneg rows) as Hn.
  destruct (Sqlite.max_rowid <=? largest) eqn:F.
  - apply Z.leb_le in F.
    replace (largest + Z.of_nat (length (p :: ps)) <=? Sqlite.max_rowid)
      with false; [reflexivity |].
    symmetry. apply Z.leb_gt. simpl length. lia.
  - apply Z.leb_gt in F. cbn [bind]. rewrite IH.
    assert (L : Z.max (largest + 1)
                  (Sqlite.max_id
                     (rows ++ [mk_row (largest + 1) (fst p) (snd p)]))
                = largest + 1).
    { rewrite max_id_app. simpl. lia. }
    destruct ps as [| q ps].
    + replace (largest + Z.of_nat (length [p]) <=? Sqlite.max_rowid)
        with true by (symmetry; apply Z.leb_le; simpl; lia).
      simpl. reflexivity.
    + cbv zeta. rewrite L.
      replace (largest + 1 + Z.of_nat (length (q :: ps)))
        with (largest + Z.of_nat (length (p :: q :: ps)))
        by (simpl length; lia).
      destruct (largest + Z.of_nat (length (p :: q :: ps)) <=? Sqlite.max_rowid);
        [| reflexivity].
      cbn [number]. rewrite <- app_assoc.
      replace (largest + 1 + 1) with (largest + 1 + 1) by reflexivity.
      reflexivity.
Qed.

Lemma number_row_of_pairs (ps : list (string * string)) :
  forall k, map pair_of_row (number row_of k ps) = ps.
Proof.
  induction ps as [| [e t] ps IH]; intro k; simpl; [reflexivity |].
  rewrite IH. reflexivity.
Qed.

Lemma delete_all_created (db : sqlite_db) :
  Sqlite.delete_all (Sqlite.create_table_if_not_exists db)
  = Ok (mk_db (Some []) (sqlite_sequence db)).
Proof.
  unfold Sqlite.create_table_if_not_exists, Sqlite.delete_all, Sqlite.table.
  destruct (user_history db) eqn:Eu; simpl; rewrite ?Eu; reflexivity.
Qed.

(** What [transfer_to_sqlite] does on records. *)
Lemma transfer_to_sqlite_exact (m : mongo) (db : sqlite_db) :
  forallb is_record (Pymongo.find m) = true ->
  transfer_to_sqlite m db
  = match Pymongo.find m with
    | [] => Ok (mk_db (Some []) (sqlite_sequence db))
    | docs =>
        let largest := Z.max 0 (sqlite_sequence db) in
        if largest + Z.of_nat (length docs) <=? Sqlite.max_rowid then
          Ok (mk_db (Some (number row_of (largest + 1) (map pair_of_doc docs)))
                    (largest + Z.of_nat (length docs)))
        else Raise (OperationalError "database or disk is full")
    end.
Proof.
  intro H. unfold transfer_to_sqlite.
  rewrite delete_all_created, (insert_data_of_records _ H). cbn [bind].
  rewrite executemany_pairs.
  destruct (Pymongo.find m) as [| d docs]; [reflexivity |].
  cbn [map Sqlite.max_id fold_right app]. cbv zeta.
  rewrite (Z.max_comm (sqlite_sequence db) 0).
  change (pair_of_doc d :: map pair_of_doc docs)
    with (map pair_of_doc (d :: docs)).
  rewrite length_map. reflexivity.
Qed.

Lemma transfer_to_sqlite_records (m : mongo) (db : sqlite_db) :
  forallb is_record (Pymongo.find m) = true ->
  has_room db (length (Pymongo.find m)) ->
  exists (rows : list row) (seq : Z),
    transfer_to_sqlite m db = Ok (mk_db (Some rows) seq)
    /\ map pair_of_row rows = map pair_of_doc (Pymongo.find m)
    /\ (Pymongo.find m <> [] ->
        seq = Z.max 0 (sqlite_sequence db)
              + Z.of_nat (length (Pymongo.find m))).
Proof.
  intros H R. rewrite (transfer_to_sqlite_exact m db H). unfold has_room in R.
  destruct (Pymongo.find m) as [| d docs] eqn:E.
  - exists [], (sqlite_sequence db). repeat split. congruence.
  - cbv zeta. apply Z.leb_le in R. rewrite R.
    eexists _, _. split; [reflexivity |].
    split; [apply number_row_of_pairs | reflexivity].
Qed.

(** C5, as amended: when every document read back from the primary
    store is a record and the identifiers left suffice for them, the
    transfer succeeds and leaves as many rows in [user_history] as
    documents were read; query 5 returns that number. *)
Theorem transfer_row_count :
  forall (m : mongo) (db : sqlite_db),
    forallb is_record (Pymongo.find m) = true ->
    has_room db (length (Pymongo.find m)) ->
    exists db' : sqlite_db,
      transfer_to_sqlite m db = Ok db'
      /\ length (rows_of db') = length (Pymongo.find m)
      /\ run_total_number_of_emails db'
         = Ok (Z.of_nat (length (Pymongo.find m))).
Proof.
  intros m db H R.
  destruct (transfer_to_sqlite_records m db H R) as (rows & seq & E & Hp & _).
  exists (mk_db (Some rows) seq).
  assert (L : length rows = length (Pymongo.find m)).
  { rewrite <- (length_map pair_of_row), Hp. apply length_map. }
  split; [exact E | split; [exact L |]].
  unfold run_total_number_of_emails, total_number_of_emails; simpl.
  rewrite L. reflexivity.
Qed.

Lemma transfer_row_count_witness :
  exists db' : sqlite_db,
    transfer_to_sqlite two_documents old_table = Ok db'
    /\ length (rows_of db') = length (Pymongo.find two_documents)
    /\ run_total_number_of_emails db'
       = Ok (Z.of_nat (length (Pymongo.find two_documents))).
Proof.
  apply (transfer_row_count two_documents old_table); [reflexivity |].
  unfold has_room. simpl. unfold Sqlite.max_rowid. lia.
Defined.

(** C5, as stated, fails once the identifiers have run out: with the
    largest identifier already handed out, the transfer of two records
    is refused, and no row count equals their number. *)
Lemma transfer_refused_when_ids_run_out :
  forallb is_record (Pymongo.find two_documents) = true
  /\ transfer_to_sqlite two_documents full_table
     = Raise (OperationalError "database or disk is full")
  /\ ~ exists db' : sqlite_db,
        transfer_to_sqlite two_documents full_table = Ok db'
        /\ length (rows_of db') = length (Pymongo.find two_documents).
Proof.
  assert (E : transfer_to_sqlite two_documents full_table
              = Raise (OperationalError "database or disk is full"))
    by (vm_compute; reflexivity).
  split; [reflexivity | split; [exact E |]].
  intros (db' & E' & _). rewrite E in E'. discriminate.
Qed.

(** *** The documents of an extracted sequence *)

Lemma number_nil {A B : Type} (f : Z -> A -> B) (n : Z) (l : list A) :
  number f n l = [] -> l = [].
Proof. destruct l; simpl; [reflexivity | discriminate]. Qed.

Lemma assign_ids_spec_length (data : list dict) :
  forall n data' n',
    Pymongo.assign_ids data n = (data', n') -> length data' = length data.
Proof.
  induction data as [| d data IH]; intros n data' n' H; simpl in H.
  - injection H as <- <-. reflexivity.
  - destruct (Pymongo.has_key d "_id").
    + destruct (Pymongo.assign_ids data n) as [ds oid] eqn:E.
      injection H as <- <-. simpl. f_equal. eauto.
    + destruct (Pymongo.assign_ids data (n + 1)) as [ds oid] eqn:E.
      injection H as <- <-. simpl. f_equal. eauto.
Qed.

Lemma assign_ids_records (recs : list (string * string)) :
  forall n,
    Pymongo.assign_ids (map record_dict recs) n
    = (number with_id n recs, n + Z.of_nat (length recs)).
Proof.
  induction recs as [| p recs IH]; intro n.
  - simpl. f_equal. lia.
  - cbn [map Pymongo.assign_ids].
    change (Pymongo.has_key (record_dict p) "_id") with false.
    cbv iota. rewrite IH. cbv beta iota. cbn [number length].
    apply f_equal2; [reflexivity | lia].
Qed.

Lemma assign_ids_with_id (recs : list (string * string)) :
  forall n k,
    Pymongo.assign_ids (number with_id n recs) k = (number with_id n recs, k).
Proof.
  induction recs as [| p recs IH]; intros n k; [reflexivity |].
  cbn [number Pymongo.assign_ids].
  change (Pymongo.has_key (with_id n p) "_id") with true.
  cbv iota. rewrite IH. cbv beta iota. reflexivity.
Qed.

Lemma ids_below_fresh (n : Z) (coll : list dict) (d : dict) :
  ids_below n coll -> Pymongo.id_of d = VObjectId n ->
  existsb (fun c => Pymongo.value_eqb (Pymongo.id_of c) (Pymongo.id_of d)) coll
  = false.
Proof.
  intros H Hd. rewrite Hd. induction H as [| c coll (i & Hi & Hlt) _ IH];
    simpl; [reflexivity |].
  rewrite Hi, IH. simpl. rewrite orb_false_r. apply Z.eqb_neq. lia.
Qed.

Lemma bulk_insert_numbered (recs : list (string * string)) :
  forall n coll,
    ids_below n coll ->
    Pymongo.bulk_insert (number with_id n recs) coll
    = Ok (coll ++ number stored_doc n recs)%list.
Proof.
  induction recs as [| p recs IH]; intros n coll H; simpl.
  - rewrite app_nil_r. reflexivity.
  - rewrite (ids_below_fresh n coll (with_id n p) H eq_refl).
    change (Pymongo.stored (with_id n p)) with (stored_doc n p).
    rewrite IH.
    + rewrite <- app_assoc. reflexivity.
    + apply Forall_app. split.
      * eapply Forall_impl; [| exact H].
        intros c (i & Hi & Hlt). exists i. split; [exact Hi | lia].
      * constructor; [| constructor]. exists n. split; [reflexivity | lia].
Qed.

Lemma stored_docs_are_records (recs : list (string * string)) :
  forall n,
    forallb is_record (number stored_doc n recs) = true
    /\ map pair_of_doc (number stored_doc n recs) = recs.
Proof.
  induction recs as [| [e t] recs IH]; intro n; simpl; [auto |].
  destruct (IH (n + 1)) as [H1 H2]. rewrite H1, H2. auto.
Qed.

Lemma number_length {A B : Type} (f : Z -> A -> B) (l : list A) :
  forall n, length (number f n l) = length l.
Proof. induction l as [| x l IH]; intro n; simpl; [reflexivity | auto]. Qed.

(** The state the two steps leave when given [data], whose documents are
    stored as [number stored_doc n recs]. *)
Lemma load_stores_numbered (recs : list (string * string)) (n oid : Z)
  (data data' : list dict) (st : stores) :
  data <> [] ->
  Pymongo.assign_ids data (next_oid (primary st)) = (data', oid) ->
  data' = number with_id n recs ->
  has_room (relational st) (length recs) ->
  exists rows : list row,
    load_stores data st
    = Ok (data',
          mk_stores (mk_mongo (number stored_doc n recs) oid)
                    (mk_db (Some rows)
                       (Z.max 0 (sqlite_sequence (relational st))
                        + Z.of_nat (length recs))))
    /\ map pair_of_row rows = recs.
Proof.
  intros Hne Ha -> R. unfold load_stores, save_to_mongodb, Pymongo.insert_many.
  destruct data as [| d data]; [congruence |].
  cbn [Pymongo.delete_many next_oid collection]. rewrite Ha.
  rewrite (bulk_insert_numbered recs n []); [| constructor].
  cbn [app bind].
  destruct (stored_docs_are_records recs n) as [Hr Hp].
  assert (Hrec : recs <> []).
  { intro E0. pose proof (assign_ids_spec_length _ _ _ _ Ha) as L.
    rewrite E0 in L. discriminate. }
  destruct (transfer_to_sqlite_records
              (mk_mongo (number stored_doc n recs) oid) (relational st) Hr)
    as (rows & seq & E & Hrows & Hseq).
  { cbn [Pymongo.find collection]. rewrite number_length. exact R. }
  cbn [Pymongo.find collection] in Hseq. rewrite number_length in Hseq.
  rewrite Hseq in E.
  - exists rows. rewrite E. simpl. split; [reflexivity |].
    rewrite Hrows. exact Hp.
  - destruct recs; [congruence | discriminate].
Qed.

(** *** What the extraction hands to the stores *)

Lemma transform_line_record (line : string) (rec : dict) :
  transform_line line = Ok (Some rec) -> exists p, rec = record_dict p.
Proof.
  unfold transform_line. destruct (pattern_search line) as [[email date_str] |];
    [| discriminate].
  intro H. apply bind_Ok in H as (dt & _ & H). injection H as <-.
  eexists (_, _). reflexivity.
Qed.

Lemma extract_loop_records (lines : list string) :
  forall (acc data : list dict) (recs0 : list (string * string)),
    acc = map record_dict recs0 ->
    extract_loop lines acc = Ok data ->
    exists recs, data = map record_dict recs.
Proof.
  induction lines as [| l lines IH]; intros acc data recs0 Hacc H; simpl in H.
  - injection H as <-. eauto.
  - apply bind_Ok in H as (r & Hr & H). destruct r as [rec |].
    + destruct (transform_line_record _ _ Hr) as [p ->].
      apply (IH _ _ (recs0 ++ [p]) ) in H; [exact H |].
      rewrite map_app, Hacc. reflexivity.
    + eapply IH; eassumption.
Qed.

Lemma extract_and_transform_records (content : string) (data : list dict) :
  extract_and_transform content = Ok data ->
  exists recs, data = map record_dict recs.
Proof. apply (extract_loop_records _ [] data []). reflexivity. Qed.

Lemma extract_loop_no_match (lines : list string) (acc : list dict) :
  forallb (fun l => match pattern_search l with None => true | _ => false end)
    lines = true ->
  extract_loop lines acc = Ok acc.
Proof.
  induction lines as [| l lines IH]; simpl; intro H; [reflexivity |].
  apply andb_true_iff in H as [Hl H].
  destruct (pattern_search l) eqn:E; [discriminate |].
  rewrite (transform_line_no_match _ E). simpl. auto.
Qed.

(** ** Running the two store steps twice *)

Lemma load_records_twice (recs : list (string * string)) (st : stores) :
  recs <> [] ->
  has_room (relational st) (2 * length recs) ->
  exists d1 s1 d2 s2 d3 s3,
    load_stores (map record_dict recs) st = Ok (d1, s1)
    /\ load_twice (map record_dict recs) st = Ok (d2, s2)
    /\ load_again (map record_dict recs) st = Ok (d3, s3)
    /\ table_pairs s1 = recs
    /\ table_pairs s2 = recs
    /\ table_pairs s3 = recs.
Proof.
  intros Hrec R. unfold has_room in R.
  set (n0 := next_oid (primary st)).
  assert (Hne : map record_dict recs <> [])
    by (destruct recs; [congruence | discriminate]).
  assert (Hne' : number with_id n0 recs <> [])
    by (destruct recs; [congruence | discriminate]).
  destruct (load_stores_numbered recs n0 _ _ _ st Hne
              (assign_ids_records recs n0) eq_refl)
    as (rows1 & E1 & P1); [unfold has_room; lia |].
  set (st1 := mk_stores _ _) in E1.
  assert (R1 : has_room (relational st1) (length recs)).
  { unfold has_room, st1. cbn [relational sqlite_sequence]. lia. }
  destruct (load_stores_numbered recs n0 _ _ _ st1 Hne'
              (assign_ids_with_id recs n0 _) eq_refl R1)
    as (rows2 & E2 & P2).
  destruct (load_stores_numbered recs (next_oid (primary st1)) _ _ _ st1 Hne
              (assign_ids_records recs _) eq_refl R1)
    as (rows3 & E3 & P3).
  unfold load_twice, load_again. rewrite E1. cbn [bind]. rewrite E2, E3.
  eexists _, _, _, _, _, _. do 3 (split; [reflexivity |]).
  unfold table_pairs. subst st1. cbn [relational rows_of user_history].
  auto.
Qed.

(** C7, as amended: for the records of a non-empty extraction, and
    while the identifiers left suffice for both runs, the two store steps
    succeed once, twice in succession on the same list, and on a fresh
    extraction; the table then holds the extracted (sender, timestamp)
    pairs, as many rows and the same pairs counted with multiplicity
    after two runs as after one. *)
Theorem load_stores_twice_same_table :
  forall (content : string) (data : list dict) (st : stores),
    extract_and_transform content = Ok data ->
    data <> [] ->
    has_room (relational st) (2 * length data) ->
    exists d1 s1 d2 s2 d3 s3,
      load_stores data st = Ok (d1, s1)
      /\ load_twice data st = Ok (d2, s2)
      /\ load_again data st = Ok (d3, s3)
      /\ table_pairs s1 = map pair_of_doc data
      /\ length (rows_of (relational s2)) = length (rows_of (relational s1))
      /\ Permutation (table_pairs s2) (table_pairs s1)
      /\ length (rows_of (relational s3)) = length (rows_of (relational s1))
      /\ Permutation (table_pairs s3) (table_pairs s1).
Proof.
  intros content data st H Hne R.
  destruct (extract_and_transform_records _ _ H) as [recs ->].
  rewrite length_map in R.
  assert (Hrec : recs <> []) by (intros ->; apply Hne; reflexivity).
  destruct (load_records_twice recs st Hrec R)
    as (d1 & s1 & d2 & s2 & d3 & s3 & E1 & E2 & E3 & P1 & P2 & P3).
  exists d1, s1, d2, s2, d3, s3. do 3 (split; [assumption |]).
  assert (Q : map pair_of_doc (map record_dict recs) = recs).
  { clear. induction recs as [| [e t] recs IH]; simpl; [| rewrite IH];
      reflexivity. }
  assert (L : forall s, table_pairs s = recs ->
                        length (rows_of (relational s)) = length recs).
  { intros s <-. unfold table_pairs. symmetry. apply length_map. }
  rewrite Q, P1, P2, P3, (L s1 P1), (L s2 P2), (L s3 P3).
  repeat split; apply Permutation_refl.
Qed.

Lemma load_stores_twice_same_table_witness :
  exists d1 s1 d2 s2 d3 s3,
    load_stores two_records used_stores = Ok (d1, s1)
    /\ load_twice two_records used_stores = Ok (d2, s2)
    /\ load_again two_records used_stores = Ok (d3, s3)
    /\ table_pairs s1 = map pair_of_doc two_records
    /\ length (rows_of (relational s2)) = length (rows_of (relational s1))
    /\ Permutation (table_pairs s2) (table_pairs s1)
    /\ length (rows_of (relational s3)) = length (rows_of (relational s1))
    /\ Permutation (table_pairs s3) (table_pairs s1).
Proof.
  apply (load_stores_twice_same_table two_lines two_records used_stores).
  - vm_compute. reflexivity.
  - discriminate.
  - unfold has_room. simpl. unfold Sqlite.max_rowid. lia.
Defined.

(** C7, as stated, fails when the identifiers left suffice for one run
    only: the extracted records are stored by the first run, and the
    second run, on the same list or on a fresh extraction, is refused. *)
Lemma second_run_refused_when_ids_run_out :
  extract_and_transform two_lines = Ok two_records
  /\ (exists d1 s1,
        load_stores two_records (mk_stores two_documents nearly_full_table)
        = Ok (d1, s1)
        /\ table_pairs s1 = map pair_of_doc two_records)
  /\ load_twice two_records (mk_stores two_documents nearly_full_table)
     = Raise (OperationalError "database or disk is full")
  /\ load_again two_records (mk_stores two_documents nearly_full_table)
     = Raise (OperationalError "database or disk is full").
Proof.
  split; [vm_compute; reflexivity |].
  split; [eexists _, _; split; vm_compute; reflexivity |].
  split; vm_compute; reflexivity.
Qed.

(** ** The analysis runner *)

Section Runner.

Variable execute : list string -> string -> result (list string).

Lemma queries_loop_spec (items : list (string * string)) :
  forall rep : report,
    queries_loop execute items rep
    = Ok (mk_report (printed rep ++ expected_output execute items (executed rep))
                    (executed rep ++ map snd items)).
Proof.
  induction items as [| [desc query] items IH]; intros [out hist]; simpl.
  - rewrite !app_nil_r. reflexivity.
  - destruct (execute hist query) as [rows | e]; simpl; rewrite IH; simpl;
      rewrite <- !app_assoc; reflexivity.
Qed.

End Runner.

(** C9: whatever each [cursor.execute] call does, [run_sql_queries]
    returns normally; all ten queries are executed, in their declared
    order; and each query contributes its label followed by its own rows
    or, when its execution raised, by the one line reporting its error. *)
Theorem query_failure_is_isolated :
  forall execute : list string -> string -> result (list string),
    run_sql_queries execute
    = Ok (mk_report
            ((nl ++ "SQL Query Results:")%string
             :: expected_output execute queries [])
            (map snd queries))
    /\ length (map snd queries) = 10%nat.
Proof.
  intro execute. split; [| reflexivity].
  unfold run_sql_queries. rewrite queries_loop_spec. reflexivity.
Qed.

(** ** An extraction without records *)

(** C10: when no line of the log matches the pattern, the extraction
    returns the empty list, [save_to_mongodb] raises on it
    ([insert_many] rejects an empty list), and [main] aborts with that
    exception. *)
Theorem empty_extraction_aborts :
  forall (execute : list string -> string -> result (list string))
         (mbox : string) (st : stores),
    forallb (fun l => match pattern_search l with None => true | _ => false end)
      (file_lines mbox) = true ->
    extract_and_transform mbox = Ok []
    /\ (forall m, save_to_mongodb [] m
                  = Raise (TypeError "documents must be a non-empty list"))
    /\ main execute mbox st
       = Raise (TypeError "documents must be a non-empty list").
Proof.
  intros execute mbox st H.
  assert (E : extract_and_transform mbox = Ok [])
    by exact (extract_loop_no_match _ [] H).
  split; [exact E | split; [reflexivity |]].
  unfold main. rewrite E. reflexivity.
Qed.

Lemma empty_extraction_aborts_witness :
  extract_and_transform ("Subject: hello" ++ String LF "")%string = Ok []
  /\ (forall m, save_to_mongodb [] m
                = Raise (TypeError "documents must be a non-empty list"))
  /\ main (fun _ _ => Ok []) ("Subject: hello" ++ String LF "")%string
       used_stores
     = Raise (TypeError "documents must be a non-empty list").
Proof.
  apply (empty_extraction_aborts (fun _ _ => Ok [])
           ("Subject: hello" ++ String LF "")%string used_stores).
  reflexivity.
Defined.

(** ** Grouping and counting *)

Section GroupCount.

Context {K : Type}.
Variable eqb : K -> K -> bool.
Hypothesis eqb_eq : forall a b, eqb a b = true <-> a = b.

Lemma eqb_refl (a : K) : eqb a a = true.
Proof. apply eqb_eq. reflexivity. Qed.

Lemma eqb_neq (a b : K) : eqb a b = false <-> a <> b.
Proof.
  split.
  - intros H E. apply eqb_eq in E. congruence.
  - intro H. destruct (eqb a b) eqn:E; [| reflexivity].
    apply eqb_eq in E. contradiction.
Qed.

Lemma bump_total (k : K) (gs : list (K * Z)) :
  total (Sql.bump eqb k gs) = total gs + 1.
Proof.
  unfold total. induction gs as [| [k' n] gs IH]; simpl; [lia |].
  destruct (eqb k k'); simpl; lia.
Qed.

Lemma bump_keys (k : K) (gs : list (K * Z)) :
  map fst (Sql.bump eqb k gs)
  = if existsb (eqb k) (map fst gs) then map fst gs else map fst gs ++ [k].
Proof.
  induction gs as [| [k' n] gs IH]; simpl; [reflexivity |].
  destruct (eqb k k'); simpl; [reflexivity |].
  rewrite IH. destruct (existsb (eqb k) (map fst gs)); reflexivity.
Qed.

Lemma existsb_eqb_In (k : K) (l : list K) :
  existsb (eqb k) l = true <-> In k l.
Proof.
  rewrite existsb_exists. split.
  - intros (x & Hx & E). apply eqb_eq in E. subst. exact Hx.
  - intro H. exists k. split; [exact H | apply eqb_refl].
Qed.

Lemma bump_In (k x : K) (gs : list (K * Z)) :
  In x (map fst (Sql.bump eqb k gs)) <-> x = k \/ In x (map fst gs).
Proof.
  rewrite bump_keys. destruct (existsb (eqb k) (map fst gs)) eqn:E.
  - apply existsb_eqb_In in E. split; [auto |].
    intros [-> | H]; assumption.
  - rewrite in_app_iff. simpl. intuition.
Qed.

Lemma bump_NoDup (k : K) (gs : list (K * Z)) :
  NoDup (map fst gs) -> NoDup (map fst (Sql.bump eqb k gs)).
Proof.
  intro H. rewrite bump_keys. destruct (existsb (eqb k) (map fst gs)) eqn:E;
    [exact H |].
  apply NoDup_app; [exact H | repeat constructor; simpl; tauto |].
  intros x Hx [<- | []].
  apply existsb_eqb_In in Hx. congruence.
Qed.

Lemma bump_lookup (k x : K) (gs : list (K * Z)) :
  lookup eqb x (Sql.bump eqb k gs) = lookup eqb x gs + (if eqb x k then 1 else 0).
Proof.
  induction gs as [| [k' n] gs IH]; simpl.
  - destruct (eqb x k); lia.
  - destruct (eqb k k') eqn:E; simpl.
    + apply eqb_eq in E. subst k'. destruct (eqb x k); lia.
    + destruct (eqb x k') eqn:E'; [| exact IH].
      apply eqb_eq in E'. subst k'.
      assert (E'' : eqb x k = false).
      { apply eqb_neq. intros ->. rewrite eqb_refl in E. discriminate. }
      rewrite E''. lia.
Qed.

(** The loop of [group_count], from any groups [gs]. *)
Lemma fold_bump (keys : list K) :
  forall gs,
    let gs' := fold_left (fun gs k => Sql.bump eqb k gs) keys gs in
    total gs' = total gs + Z.of_nat (length keys)
    /\ (NoDup (map fst gs) -> NoDup (map fst gs'))
    /\ (forall x, In x (map fst gs') <-> In x (map fst gs) \/ In x keys)
    /\ (forall x, lookup eqb x gs' = lookup eqb x gs + occurrences eqb x keys).
Proof.
  unfold occurrences.
  induction keys as [| k keys IH]; intro gs; cbn zeta.
  - simpl. repeat split; auto; try lia. tauto.
  - cbn [fold_left]. destruct (IH (Sql.bump eqb k gs)) as (T & N & I & L).
    repeat split.
    + rewrite T, bump_total. cbn [length]. lia.
    + intro H. apply N, bump_NoDup, H.
    + rewrite I, bump_In. simpl. intuition.
    + rewrite I, bump_In. simpl. intuition.
    + intro x. rewrite L, bump_lookup. cbn [filter].
      destruct (eqb x k); cbn [length]; lia.
Qed.

Lemma group_count_total (keys : list K) :
  total (Sql.group_count eqb keys) = Z.of_nat (length keys).
Proof. apply (fold_bump keys []). Qed.

Lemma group_count_NoDup (keys : list K) : NoDup (map fst (Sql.group_count eqb keys)).
Proof. apply (fold_bump keys []). constructor. Qed.

Lemma group_count_In (keys : list K) (x : K) :
  In x (map fst (Sql.group_count eqb keys)) <-> In x keys.
Proof.
  destruct (fold_bump keys []) as (_ & _ & I & _).
  unfold Sql.group_count. rewrite (I x).
  simpl. tauto.
Qed.

Lemma group_count_lookup (keys : list K) (x : K) :
  lookup eqb x (Sql.group_count eqb keys) = occurrences eqb x keys.
Proof.
  destruct (fold_bump keys []) as (_ & _ & _ & L).
  unfold Sql.group_count. rewrite (L x). reflexivity.
Qed.

Lemma lookup_In (k : K) (gs : list (K * Z)) :
  In k (map fst gs) -> In (k, lookup eqb k gs) gs.
Proof.
  induction gs as [| [k' n] gs IH]; simpl; [tauto |].
  destruct (eqb k k') eqn:E.
  - apply eqb_eq in E. subst. auto.
  - intros [-> | H]; [rewrite eqb_refl in E; discriminate | auto].
Qed.

Lemma In_lookup (k : K) (n : Z) (gs : list (K * Z)) :
  NoDup (map fst gs) -> In (k, n) gs -> lookup eqb k gs = n.
Proof.
  induction gs as [| [k' n'] gs IH]; simpl; [tauto |].
  intros ND [E | H].
  - injection E as -> ->. rewrite eqb_refl. reflexivity.
  - inversion ND as [| ? ? Hnot ND']; subst.
    destruct (eqb k k') eqn:E; [| auto].
    apply eqb_eq in E. subst k'. exfalso. apply Hnot.
    change k with (fst (k, n)). apply in_map. exact H.
Qed.

(** Each result row of [group_count] carries the number of occurrences
    of its key, and every key has its row. *)
Lemma group_count_rows (keys : list K) (k : K) (n : Z) :
  In (k, n) (Sql.group_count eqb keys) <-> In k keys /\ n = occurrences eqb k keys.
Proof.
  split.
  - intro H. split.
    + apply group_count_In. change k with (fst (k, n)). apply in_map. exact H.
    + rewrite <- group_count_lookup. symmetry.
      apply In_lookup; [apply group_count_NoDup | exact H].
  - intros [H ->]. rewrite <- group_count_lookup.
    apply lookup_In, group_count_In, H.
Qed.

(** One result row per distinct key. *)
Lemma group_count_length (dec : forall a b : K, {a = b} + {a <> b})
  (keys : list K) :
  length (Sql.group_count eqb keys) = length (nodup dec keys).
Proof.
  rewrite <- (length_map fst). apply Permutation_length.
  apply NoDup_Permutation.
  - apply group_count_NoDup.
  - apply NoDup_nodup.
  - intro x. rewrite group_count_In, nodup_In. tauto.
Qed.

End GroupCount.

Lemma null_eqb_eq (a b : option string) : Sql.null_eqb a b = true <-> a = b.
Proof.
  destruct a as [s |], b as [t |]; simpl; try (split; congruence).
  rewrite String.eqb_eq. split; congruence.
Qed.

Lemma filter_map_length {A B : Type} (f : B -> bool) (g : A -> B) (l : list A) :
  length (filter f (map g l)) = length (filter (fun x => f (g x)) l).
Proof.
  induction l as [| x l IH]; simpl; [reflexivity |].
  destruct (f (g x)); simpl; congruence.
Qed.

(** ** Queries 2, 5 and 10 *)

(** C6, as amended: on a table with at least one row, query 10 returns
    the total record count of query 5 divided by the number of distinct
    values of [date(date)], NULL being one of them when SQLite cannot read
    the date of some row; this is the mean of the counts of query 2, one
    per such value, whose sum is the total record count. *)
Theorem average_is_total_by_date_values :
  forall (sql_date : string -> option string) (rows : list row),
    rows <> [] ->
    average_emails_per_day sql_date rows
    = Some (Qdiv (inject_Z (total_number_of_emails rows))
                 (inject_Z (Z.of_nat (length (date_values sql_date rows)))))
    /\ average_emails_per_day sql_date rows
       = Sql.avg (map snd (emails_per_day sql_date rows))
    /\ fold_right Z.add 0 (map snd (emails_per_day sql_date rows))
       = total_number_of_emails rows
    /\ length (emails_per_day sql_date rows)
       = length (date_values sql_date rows)
    /\ (0 < length (date_values sql_date rows))%nat.
Proof.
  intros sql_date rows Hne.
  set (keys := map (fun r => sql_date (row_date r)) rows).
  pose proof (group_count_total Sql.null_eqb null_eqb_eq keys) as T.
  pose proof (group_count_length Sql.null_eqb null_eqb_eq day_dec keys) as L.
  unfold total in T. subst keys. rewrite length_map in T.
  assert (G : Sql.group_count Sql.null_eqb
                (map (fun r => sql_date (row_date r)) rows) <> []).
  { intro E. rewrite E in T. simpl in T. destruct rows; [congruence |].
    simpl in T. lia. }
  assert (P : (0 < length (date_values sql_date rows))%nat).
  { unfold date_values. rewrite <- L.
    destruct (Sql.group_count _ _); [congruence | simpl; lia]. }
  unfold average_emails_per_day, emails_per_day, total_number_of_emails,
    date_values, Sql.avg.
  rewrite <- L.
  destruct (Sql.group_count Sql.null_eqb _) as [| g gs] eqn:E; [congruence |].
  rewrite T, length_map. repeat split. simpl. lia.
Qed.

Lemma average_is_total_by_date_values_witness :
  average_emails_per_day date_prefix three_rows
  = Some (Qdiv (inject_Z (total_number_of_emails three_rows))
               (inject_Z
                  (Z.of_nat (length (date_values date_prefix three_rows)))))
  /\ average_emails_per_day date_prefix three_rows
     = Sql.avg (map snd (emails_per_day date_prefix three_rows))
  /\ fold_right Z.add 0 (map snd (emails_per_day date_prefix three_rows))
     = total_number_of_emails three_rows
  /\ length (emails_per_day date_prefix three_rows)
     = length (date_values date_prefix three_rows)
  /\ (0 < length (date_values date_prefix three_rows))%nat.
Proof.
  apply (average_is_total_by_date_values date_prefix three_rows). discriminate.
Defined.

(** C6, as stated, fails on a table with years below 1000: SQLite reads
    none of their dates, so the rows of 999-01-05 and 998-01-05 fall into
    the one group of NULL, and query 10 is 3/2 where three records on
    three calendar days give 3/3. *)
Lemma average_merges_unreadable_dates :
  exists q : Q,
    average_emails_per_day date_of_timestamp short_year_rows = Some q
    /\ emails_per_day date_of_timestamp short_year_rows
       = [(None, 2); (Some "2024-01-05"%string, 1)]
    /\ total_number_of_emails short_year_rows = 3
    /\ length (calendar_days short_year_rows) = 3%nat
    /\ ~ Qeq q
          (Qdiv (inject_Z (total_number_of_emails short_year_rows))
                (inject_Z
                   (Z.of_nat (length (calendar_days short_year_rows))))).
Proof.
  eexists. split; [vm_compute; reflexivity |].
  repeat split; try (vm_compute; reflexivity).
  vm_compute. discriminate.
Qed.

(** ** Query 4 *)

Lemma prefix_at (a : ascii) (s : string) :
  String.prefix "@" (String a s) = Ascii.eqb a "@".
Proof.
  cbn [String.prefix]. destruct (ascii_dec "@" a) as [<- | H].
  - destruct s; reflexivity.
  - symmetry. apply Ascii.eqb_neq. congruence.
Qed.

Lemma instr_from_at (s : string) :
  forall (i : Z) (dom : string),
    after_first_at s = Some dom ->
    exists k : nat,
      Sql.instr_from s "@" i = i + Z.of_nat k /\ Sql.drop (S k) s = dom.
Proof.
  induction s as [| a s IH]; intros i dom H; [discriminate |].
  cbn [Sql.instr_from]. rewrite prefix_at. simpl in H.
  destruct (Ascii.eqb a "@").
  - injection H as <-. exists 0%nat. split; [lia | reflexivity].
  - destruct (IH (i + 1) dom H) as (k & E & D).
    exists (S k). split; [rewrite E; lia | exact D].
Qed.

Lemma until_NUL_no_NUL (s : string) : no_NUL s = true -> Sql.until_NUL s = s.
Proof.
  unfold no_NUL. induction s as [| a s IH]; simpl; [reflexivity |].
  intro H. apply andb_true_iff in H as [Ha H].
  destruct (Ascii.eqb a Ascii.zero); [discriminate |].
  rewrite (IH H). reflexivity.
Qed.

Lemma domain_after_first_at (email dom : string) :
  no_NUL email = true ->
  after_first_at email = Some dom -> domain email = dom.
Proof.
  intros N H. unfold domain, Sql.instr, Sql.substr.
  rewrite (until_NUL_no_NUL _ N).
  destruct (instr_from_at email 1 dom H) as (k & E & D). rewrite E.
  replace (0 <? 1 + Z.of_nat k + 1) with true by (symmetry; apply Z.ltb_lt; lia).
  replace (Z.to_nat (1 + Z.of_nat k + 1 - 1)) with (S k) by lia.
  exact D.
Qed.

(** C8, as amended: for a record whose sender address contains an ["@"]
    and no NUL character, the domain of query 4 is the text strictly
    after the first ["@"], and query 4 has a result row for that domain
    whose count is the number of records with that domain. *)
Theorem domain_is_text_after_first_at :
  forall (rows : list row) (r : row) (dom : string),
    In r rows ->
    no_NUL (row_email r) = true ->
    after_first_at (row_email r) = Some dom ->
    domain (row_email r) = dom
    /\ In (dom,
           Z.of_nat
             (length
                (filter (fun r' => String.eqb dom (domain (row_email r')))
                   rows)))
         (emails_per_domain rows)
    /\ forall n, In (dom, n) (emails_per_domain rows) ->
         n = Z.of_nat
               (length
                  (filter (fun r' => String.eqb dom (domain (row_email r')))
                     rows)).
Proof.
  intros rows r dom Hin Hnul Hat.
  pose proof (domain_after_first_at _ _ Hnul Hat) as Hd.
  split; [exact Hd |].
  unfold emails_per_domain.
  set (keys := map (fun r' => domain (row_email r')) rows).
  assert (Hk : In dom keys).
  { rewrite <- Hd. exact (in_map (fun r' => domain (row_email r')) _ _ Hin). }
  assert (Hc : occurrences String.eqb dom keys
               = Z.of_nat
                   (length
                      (filter
                         (fun r' => String.eqb dom (domain (row_email r')))
                         rows))).
  { unfold occurrences, keys. rewrite filter_map_length. reflexivity. }
  rewrite <- Hc. split.
  - apply (group_count_rows String.eqb String.eqb_eq). auto.
  - intros n Hn.
    apply (group_count_rows String.eqb String.eqb_eq) in Hn as [_ ->].
    reflexivity.
Qed.

Lemma domain_is_text_after_first_at_witness :
  domain "alice@example.com" = "example.com"%string
  /\ In ("example.com"%string,
         Z.of_nat
           (length
              (filter
                 (fun r' => String.eqb "example.com" (domain (row_email r')))
                 three_rows)))
       (emails_per_domain three_rows)
  /\ forall n, In ("example.com"%string, n) (emails_per_domain three_rows) ->
       n = Z.of_nat
             (length
                (filter
                   (fun r' => String.eqb "example.com" (domain (row_email r')))
                   three_rows)).
Proof.
  apply (domain_is_text_after_first_at three_rows
           (mk_row 1 "alice@example.com" "2024-01-05 09:08:07")
           "example.com").
  - simpl. auto.
  - reflexivity.
  - reflexivity.
Defined.

(** C8, as stated, fails on a sender with a NUL character, which the
    pattern accepts in a sender: SQLite's [substr] reads the address up
    to its first NUL, so the domain of [a NUL @ b] is empty where the text
    after the ["@"] is [b]. *)
Lemma domain_stops_at_NUL :
  pattern_search
    ("From " ++ sender_with_NUL ++ " Mon Jan  5 09:08:07 2024")%string
  = Some (sender_with_NUL, "Mon Jan  5 09:08:07 2024"%string)
  /\ after_first_at sender_with_NUL = Some "b"%string
  /\ domain sender_with_NUL = ""%string
  /\ ~ (forall dom, after_first_at sender_with_NUL = Some dom ->
                    domain sender_with_NUL = dom).
Proof.
  repeat split; try (vm_compute; reflexivity).
  intro H. specialize (H "b"%string eq_refl). vm_compute in H. discriminate.
Qed.

(** * Further properties *)

(** ** The matcher finds only what the pattern describes *)

Local Open Scope string_scope.
Local Open Scope Z_scope.

Lemma substring_prefix (w s : string) :
  substring 0 (String.length w) (w ++ s) = w.
Proof.
  induction w as [| a w IH]; simpl.
  - destruct s; reflexivity.
  - rewrite IH. reflexivity.
Qed.

Lemma consumed_app (w s : string) : consumed (w ++ s) s = w.
Proof.
  unfold consumed. rewrite length_append.
  replace (String.length w + String.length s - String.length s)%nat
    with (String.length w) by lia.
  apply substring_prefix.
Qed.

Lemma append_assoc (a b c : string) : ((a ++ b) ++ c = a ++ (b ++ c))%string.
Proof. induction a as [| x a IH]; simpl; [reflexivity | rewrite IH; auto]. Qed.

Lemma repeat_greedy_sound (ic : bool) (A : Type) (c : cset) (s : string) :
  forall (lo : nat) (hi : option nat) (k : string -> option A) (res : A),
    repeat_greedy ic c lo hi s k = Some res ->
    exists w s',
      s = w ++ s'
      /\ matches ic (Repeat c lo hi) w []
      /\ k s' = Some res.
Proof.
  induction s as [| a s IH]; intros lo hi k res H; cbn [repeat_greedy] in H.
  - destruct (Nat.eqb lo 0) eqn:E; [| discriminate].
    apply Nat.eqb_eq in E. subst lo.
    exists "", "". repeat split; [| exact H].
    constructor; simpl; [reflexivity | lia | destruct hi; [lia | exact I]].
  - assert (Stop : (if Nat.eqb lo 0 then k (String a s) else None) = Some res ->
                   exists w s',
                     String a s = w ++ s'
                     /\ matches ic (Repeat c lo hi) w []
                     /\ k s' = Some res).
    { intro H0. destruct (Nat.eqb lo 0) eqn:E; [| discriminate].
      apply Nat.eqb_eq in E. subst lo.
      exists "", (String a s). repeat split; [| exact H0].
      constructor; simpl; [reflexivity | lia | destruct hi; [lia | exact I]]. }
    destruct (accepts ic c a && may_take hi)%bool eqn:E; [| auto].
    apply andb_true_iff in E as [Ea Et].
    destruct (repeat_greedy ic c (Nat.pred lo) (one_less hi) s k) as [r |] eqn:R;
      [| auto].
    injection H as ->.
    destruct (IH _ _ _ _ R) as (w & s' & -> & M & K).
    exists (String a w), s'. repeat split; [| exact K].
    inversion M as [| | | | | ? ? ? ? Hall Hlo Hhi |]; subst.
    constructor; simpl.
    + rewrite Ea, Hall. reflexivity.
    + lia.
    + destruct hi as [h |]; [| exact I]. simpl in Hhi, Et.
      destruct h; [discriminate | simpl in Hhi; lia].
Qed.

Lemma run_sound (ic : bool) (r : regex) :
  forall (A : Type) (s : string) (g : groups)
         (k : string -> groups -> option A) (res : A),
    run ic r s g k = Some res ->
    exists w s' gs,
      s = w ++ s' /\ matches ic r w gs /\ k s' (gs ++ g)%list = Some res.
Proof.
  induction r as [| c | r1 IH1 r2 IH2 | r1 IH1 r2 IH2 | c lo hi | name r IH];
    intros A s g k res H; cbn [run] in H.
  - exists "", s, []. repeat split; [constructor | exact H].
  - destruct s as [| a s]; [discriminate |].
    destruct (accepts ic c a) eqn:E; [| discriminate].
    exists (String a ""), s, []. repeat split; [constructor; exact E | exact H].
  - apply IH1 in H as (w1 & s1 & g1 & -> & M1 & H).
    apply IH2 in H as (w2 & s2 & g2 & -> & M2 & H).
    exists (w1 ++ w2), s2, (g2 ++ g1)%list. repeat split.
    + symmetry. apply append_assoc.
    + constructor; assumption.
    + rewrite <- app_assoc. exact H.
  - destruct (run ic r1 s g k) as [x |] eqn:E.
    + injection H as ->. apply IH1 in E as (w & s' & gs & -> & M & K).
      exists w, s', gs. repeat split; [apply M_Or_left; exact M | exact K].
    + apply IH2 in H as (w & s' & gs & -> & M & K).
      exists w, s', gs. repeat split; [apply M_Or_right; exact M | exact K].
  - apply repeat_greedy_sound in H as (w & s' & -> & M & K).
    exists w, s', []. repeat split; assumption.
  - apply IH in H as (w & s' & gs & -> & M & K).
    rewrite consumed_app in K.
    exists w, s', ((name, w) :: gs). repeat split;
      [constructor; exact M | exact K].
Qed.

Lemma match_sound (ic : bool) (r : regex) (s rest : string) (g : groups) :
  match_ ic r s = Some (g, rest) ->
  exists w, s = w ++ rest /\ matches ic r w g.
Proof.
  unfold match_. intro H.
  apply run_sound in H as (w & s' & gs & -> & M & K).
  injection K as <- <-. rewrite app_nil_r. eauto.
Qed.

Lemma search_sound (ic : bool) (r : regex) (s rest : string) (g : groups) :
  search ic r s = Some (g, rest) ->
  exists before w, s = before ++ w ++ rest /\ matches ic r w g.
Proof.
  induction s as [| a s IH]; cbn [search]; intro H.
  - destruct (match_ ic r "") as [m |] eqn:E; [| discriminate].
    injection H as ->. apply match_sound in E as (w & E & M).
    exists "", w. split; [exact E | exact M].
  - destruct (match_ ic r (String a s)) as [m |] eqn:E.
    + injection H as ->. apply match_sound in E as (w & E & M).
      exists "", w. split; [exact E | exact M].
    + apply IH in H as (before & w & -> & M).
      exists (String a before), w. split; [reflexivity | exact M].
Qed.

Lemma matches_no_groups (ic : bool) (r : regex) (w : string) (g : groups) :
  matches ic r w g -> no_groups r = true -> g = [].
Proof.
  induction 1 as [| | r1 r2 w1 w2 g1 g2 _ IH1 _ IH2 | r1 r2 w g _ IH
                  | r1 r2 w g _ IH | | name r w g _ IH]; simpl; intro N;
    try reflexivity; try discriminate;
    apply andb_true_iff in N as [N1 N2]; auto.
  rewrite (IH1 N1), (IH2 N2). reflexivity.
Qed.

Lemma matches_Cat_inv (ic : bool) (r1 r2 : regex) (w : string) (g : groups) :
  matches ic (Cat r1 r2) w g ->
  exists w1 w2 g1 g2,
    w = w1 ++ w2 /\ g = (g2 ++ g1)%list
    /\ matches ic r1 w1 g1 /\ matches ic r2 w2 g2.
Proof. inversion 1; subst. eauto 8. Qed.

Lemma matches_Group_inv (ic : bool) (name : string) (r : regex) (w : string)
  (g : groups) :
  matches ic (Group name r) w g ->
  exists g', g = ((name, w) :: g')%list /\ matches ic r w g'.
Proof. inversion 1; subst. eauto. Qed.

Lemma matches_lit (t w : string) (g : groups) :
  matches false (lit t) w g -> w = t /\ g = [].
Proof.
  revert w g. induction t as [| a t IH]; simpl; intros w g M.
  - inversion M. auto.
  - apply matches_Cat_inv in M as (w1 & w2 & g1 & g2 & -> & -> & M1 & M2).
    apply IH in M2 as [-> ->]. inversion M1 as [| ? x E | | | | |]; subst.
    simpl in E. apply Ascii.eqb_eq in E. subst. auto.
Qed.

(** X1: when the pattern is found in a line, the line holds the text
    ["From "], the sender, one space and the date string in a row; the
    sender is not empty and has no whitespace character. *)
Theorem pattern_search_sound :
  forall line email date_str : string,
    pattern_search line = Some (email, date_str) ->
    (exists before after,
        line = before ++ "From " ++ email ++ " " ++ date_str ++ after)
    /\ email <> ""
    /\ str_forallb (fun a => negb (Char.is_space a)) email = true.
Proof.
  intros line email date_str H. unfold pattern_search in H.
  destruct (search false pattern line) as [[g rest] |] eqn:S; [| discriminate].
  apply search_sound in S as (before & w & -> & M).
  unfold pattern in M. cbn [cat] in M.
  apply matches_Cat_inv in M as (w0 & wa & g0 & ga & -> & -> & M0 & M).
  apply matches_lit in M0 as [-> ->].
  apply matches_Cat_inv in M as (w1 & wb & g1 & gb & -> & -> & M1 & M).
  apply matches_Group_inv in M1 as (g1' & -> & M1).
  apply matches_Cat_inv in M as (ws & w2 & gs & g2 & -> & -> & Ms & M2).
  apply matches_lit in Ms as [-> ->].
  apply matches_Group_inv in M2 as (g2' & -> & M2).
  apply matches_no_groups in M2 as ->; [| reflexivity].
  inversion M1 as [| | | | | ? ? ? ? Hall Hlo _ |]; subst.
  simpl in H. injection H as <- <-.
  split; [| split].
  - exists before, rest. rewrite !append_assoc. reflexivity.
  - intros ->. simpl in Hlo. lia.
  - exact Hall.
Qed.

Lemma pattern_search_sound_witness :
  (exists before after,
      alice_line
      = before ++ "From " ++ "alice@example.com" ++ " "
        ++ "Mon Jan  5 09:08:07 2024" ++ after)
  /\ "alice@example.com" <> ""
  /\ str_forallb (fun a => negb (Char.is_space a)) "alice@example.com" = true.
Proof.
  apply (pattern_search_sound alice_line "alice@example.com"
           "Mon Jan  5 09:08:07 2024").
  vm_compute. reflexivity.
Defined.

(** ** More on the extraction *)

Lemma try_first_format (date_str : string) :
  try_except_ValueError (Strptime.strptime date_str format1)
                        (Strptime.strptime date_str format2)
  = Strptime.strptime date_str format1.
Proof.
  rewrite strptime_format2.
  destruct (Strptime.strptime date_str format1) as [dt | e] eqn:E;
    [reflexivity |].
  destruct (strptime_ValueError _ _ _ E) as [msg ->]. reflexivity.
Qed.

(** X2: the second format never changes the outcome: for a line that
    matches the pattern, the record or the exception of the line is what
    the first format alone gives on the captured date string. *)
Theorem retry_is_redundant :
  forall line email date_str : string,
    pattern_search line = Some (email, date_str) ->
    try_except_ValueError (Strptime.strptime date_str format1)
                          (Strptime.strptime date_str format2)
    = Strptime.strptime date_str format1
    /\ transform_line line
       = (dt <- Strptime.strptime date_str format1 ;;
          Ok (Some [("email", VStr email);
                    ("date", VStr (Strftime.strftime dt output_format))])).
Proof.
  intros line email date_str H. split; [apply try_first_format |].
  unfold transform_line. rewrite H.
  change "%a %b %d %H:%M:%S %Y" with format1.
  change "%a %b  %d %H:%M:%S %Y" with format2.
  rewrite try_first_format. reflexivity.
Qed.

Lemma retry_is_redundant_witness :
  try_except_ValueError
    (Strptime.strptime "Mon Jan  5 09:08:07 2024" format1)
    (Strptime.strptime "Mon Jan  5 09:08:07 2024" format2)
  = Strptime.strptime "Mon Jan  5 09:08:07 2024" format1
  /\ transform_line alice_line
     = (dt <- Strptime.strptime "Mon Jan  5 09:08:07 2024" format1 ;;
        Ok (Some [("email", VStr "alice@example.com");
                  ("date", VStr (Strftime.strftime dt output_format))])).
Proof.
  apply (retry_is_redundant alice_line "alice@example.com"
           "Mon Jan  5 09:08:07 2024").
  vm_compute. reflexivity.
Defined.

Lemma transform_line_match (line email date_str : string) :
  pattern_search line = Some (email, date_str) ->
  transform_line line
  = (dt <- Strptime.strptime date_str format1 ;;
     Ok (Some [("email", VStr email);
               ("date", VStr (Strftime.strftime dt output_format))])).
Proof.
  intro H. unfold transform_line. rewrite H.
  change "%a %b %d %H:%M:%S %Y" with format1.
  change "%a %b  %d %H:%M:%S %Y" with format2.
  rewrite try_first_format. reflexivity.
Qed.

(** X3: for a line that matches and whose date parses, the timestamp of
    the record has the shape [dddd-dd-dd dd:dd:dd] exactly when the year
    is 1000 or later, and it has 19 characters exactly then. *)
Theorem timestamp_shape_iff_year :
  forall (line email date_str : string) (dt : datetime),
    pattern_search line = Some (email, date_str) ->
    Strptime.strptime date_str format1 = Ok dt ->
    exists ts,
      transform_line line = Ok (Some [("email", VStr email); ("date", VStr ts)])
      /\ (canonical ts = true <-> 1000 <= year dt)
      /\ (String.length ts = 19%nat <-> 1000 <= year dt).
Proof.
  intros line email date_str dt Hs Hp.
  rewrite (transform_line_match _ _ _ Hs), Hp. simpl.
  eexists; split; [reflexivity |].
  pose proof (strptime_in_range _ _ _ Hp) as R.
  assert (L : String.length (Strftime.strftime dt output_format) = 19%nat
              -> 1000 <= year dt).
  { intro E. destruct (Z_lt_le_dec (year dt) 1000) as [Hlt | Hge]; [| exact Hge].
    pose proof (strftime_short_below_1000 dt R Hlt) as Hs'.
    unfold output_format in E. lia. }
  split; split; intro H.
  - apply L. exact (has_shape_length _ _ H).
  - exact (strftime_canonical dt R H).
  - exact (L H).
  - exact (has_shape_length _ _ (strftime_canonical dt R H)).
Qed.

Lemma timestamp_shape_iff_year_witness :
  exists ts,
    transform_line alice_line
    = Ok (Some [("email", VStr "alice@example.com"); ("date", VStr ts)])
    /\ (canonical ts = true <-> 1000 <= year (mk_datetime 2024 1 5 9 8 7))
    /\ (String.length ts = 19%nat
        <-> 1000 <= year (mk_datetime 2024 1 5 9 8 7)).
Proof.
  apply (timestamp_shape_iff_year alice_line "alice@example.com"
           "Mon Jan  5 09:08:07 2024" (mk_datetime 2024 1 5 9 8 7));
    vm_compute; reflexivity.
Defined.

Lemma new_valid (y m d H M S : Z) (dt : datetime) :
  Datetime.new y m d H M S = Ok dt ->
  day dt <= Datetime.days_in_month (year dt) (month dt).
Proof.
  unfold Datetime.new, Datetime.check_date_fields, Datetime.check_time_fields,
    Datetime.within.
  repeat match goal with
         | |- context [negb ?b] => destruct b eqn:?; simpl
         end; try discriminate.
  intro E; injection E as <-. simpl.
  repeat match goal with
         | H : (_ && _)%bool = true |- _ => apply andb_true_iff in H as [? ?]
         | H : (_ <=? _) = true |- _ => apply Z.leb_le in H
         end.
  assumption.
Qed.

Lemma strptime_valid (data_string format : string) (dt : datetime) :
  Strptime.strptime data_string format = Ok dt ->
  day dt <= Datetime.days_in_month (year dt) (month dt).
Proof.
  unfold Strptime.strptime. intro H.
  apply bind_Ok in H as (re & _ & H).
  destruct (match_ true re data_string) as [[found rest] |]; [| discriminate].
  destruct (negb (rest =? "")%string); [discriminate |].
  do 8 (apply bind_Ok in H as (? & _ & H)).
  eapply new_valid; eassumption.
Qed.

(** X4: every record comes from a date of the calendar: its timestamp
    is the output format applied to a date whose year is in 1..9999, whose
    month is in 1..12, whose day exists in that month of that year, and
    whose time is in 00:00:00..23:59:59. *)
Theorem record_has_a_calendar_date :
  forall (line : string) (rec : dict),
    transform_line line = Ok (Some rec) ->
    exists (email : string) (dt : datetime),
      rec = [("email", VStr email);
             ("date", VStr (Strftime.strftime dt output_format))]
      /\ in_range dt
      /\ day dt <= Datetime.days_in_month (year dt) (month dt).
Proof.
  intros line rec H.
  destruct (pattern_search line) as [[email date_str] |] eqn:S.
  - rewrite (transform_line_match _ _ _ S) in H.
    apply bind_Ok in H as (dt & Hp & H). injection H as <-.
    exists email, dt. split; [reflexivity |].
    split; [exact (strptime_in_range _ _ _ Hp) | exact (strptime_valid _ _ _ Hp)].
  - rewrite (transform_line_no_match _ S) in H. discriminate.
Qed.

Lemma record_has_a_calendar_date_witness :
  exists (email : string) (dt : datetime),
    alice_record
    = [("email", VStr email);
       ("date", VStr (Strftime.strftime dt output_format))]
    /\ in_range dt
    /\ day dt <= Datetime.days_in_month (year dt) (month dt).
Proof.
  apply (record_has_a_calendar_date alice_line alice_record).
  vm_compute. reflexivity.
Defined.

Lemma transform_line_ValueError (line : string) :
  raises_ValueError (transform_line line).
Proof.
  destruct (pattern_search line) as [[email date_str] |] eqn:S.
  - rewrite (transform_line_match _ _ _ S).
    apply raises_ValueError_bind; [apply strptime_ValueError |].
    intro dt. auto with exn.
  - rewrite (transform_line_no_match _ S). auto with exn.
Qed.

(** X5: whatever the text of the log, the only exception
    [extract_and_transform] raises while processing it is a
    [ValueError]. *)
Theorem extract_raises_only_ValueError :
  forall (content : string) (e : exn),
    extract_and_transform content = Raise e ->
    exists msg, e = ValueError msg.
Proof.
  intro content. unfold extract_and_transform.
  generalize (@nil dict) as acc.
  induction (file_lines content) as [| l lines IH]; intros acc e H;
    simpl in H; [discriminate |].
  apply bind_Raise in H as [H | (r & _ & H)].
  - exact (transform_line_ValueError l e H).
  - destruct r; eapply IH; exact H.
Qed.

Lemma extract_raises_only_ValueError_witness :
  exists msg, ValueError "day is out of range for month" = ValueError msg.
Proof.
  apply (extract_raises_only_ValueError
           "From bob@example.com Fri Feb 30 10:00:00 2024").
  vm_compute. reflexivity.
Defined.

(** ** Logs put end to end *)

Lemma extract_loop_acc (lines : list string) :
  forall acc,
    extract_loop lines acc
    = (data <- extract_loop lines [] ;; Ok (acc ++ data)%list).
Proof.
  induction lines as [| l lines IH]; intro acc; simpl.
  - rewrite app_nil_r. reflexivity.
  - destruct (transform_line l) as [[rec |] | e]; simpl; [| apply IH | auto].
    rewrite (IH (acc ++ [rec])%list), (IH [rec]).
    destruct (extract_loop lines []) as [data | e]; simpl; [| reflexivity].
    rewrite <- app_assoc. reflexivity.
Qed.

Lemma universal_newlines_cons (x : ascii) (s : string) :
  universal_newlines (String x s)
  = if Ascii.eqb x CR then
      match s with
      | String y s' =>
          if Ascii.eqb y LF then String LF (universal_newlines s')
          else String LF (universal_newlines s)
      | EmptyString => String LF EmptyString
      end
    else String x (universal_newlines s).
Proof. destruct s; reflexivity. Qed.

Lemma universal_newlines_app (a b : string) :
  a = "" \/ ends_with_LF a = true ->
  universal_newlines (a ++ b) = universal_newlines a ++ universal_newlines b.
Proof.
  assert (G : forall n a, (String.length a <= n)%nat ->
              a = "" \/ ends_with_LF a = true ->
              universal_newlines (a ++ b)
              = universal_newlines a ++ universal_newlines b).
  { induction n as [| n IH]; intros [| x a'] Hlen Hend; simpl in Hlen;
      try reflexivity; try lia.
    destruct Hend as [Hend | Hend]; [discriminate |].
    destruct a' as [| y a''].
    - simpl in Hend. apply Ascii.eqb_eq in Hend. subst x. reflexivity.
    - assert (Hend' : ends_with_LF (String y a'') = true) by exact Hend.
      assert (IH1 := IH (String y a'') ltac:(simpl in *; lia) (or_intror Hend')).
      change (String x (String y a'') ++ b)
        with (String x (String y a'' ++ b)).
      rewrite (universal_newlines_cons x (String y a'' ++ b)).
      rewrite (universal_newlines_cons x (String y a'')).
      rewrite IH1.
      change (String y a'' ++ b) with (String y (a'' ++ b)).
      destruct (Ascii.eqb x CR); [| reflexivity].
      destruct (Ascii.eqb y LF); [| reflexivity].
      rewrite (IH a''); [reflexivity | simpl in Hlen; lia |].
      destruct a'' as [| z a3]; [left; reflexivity | right; exact Hend]. }
  apply (G (String.length a)). lia.
Qed.

Lemma universal_newlines_ends (a : string) :
  ends_with_LF a = true -> ends_with_LF (universal_newlines a) = true.
Proof.
  assert (C : forall x s, s <> "" -> ends_with_LF (String x s) = ends_with_LF s).
  { intros x [| y s] H; [congruence | reflexivity]. }
  assert (N : forall y s, universal_newlines (String y s) <> "").
  { intros y s. rewrite universal_newlines_cons.
    destruct (Ascii.eqb y CR); [| discriminate].
    destruct s as [| z s]; [discriminate |].
    destruct (Ascii.eqb z LF); discriminate. }
  assert (G : forall n a, (String.length a <= n)%nat ->
              ends_with_LF a = true ->
              ends_with_LF (universal_newlines a) = true).
  { induction n as [| n IH]; intros [| x a'] Hlen Hend; simpl in Hlen;
      try discriminate; try lia.
    destruct a' as [| y a''].
    - simpl in Hend. apply Ascii.eqb_eq in Hend. subst x. reflexivity.
    - assert (Hend' : ends_with_LF (String y a'') = true) by exact Hend.
      assert (IH1 := IH (String y a'') ltac:(simpl in *; lia) Hend').
      rewrite universal_newlines_cons.
      destruct (Ascii.eqb x CR).
      + destruct (Ascii.eqb y LF).
        * destruct a'' as [| z a3]; [reflexivity |].
          rewrite C by apply N.
          apply IH; [simpl in *; lia | exact Hend].
        * rewrite C by apply N. exact IH1.
      + rewrite C by apply N. exact IH1. }
  apply (G (String.length a)). lia.
Qed.

Lemma readlines_nonempty (a : ascii) (s : string) :
  readlines (String a s) <> [].
Proof.
  simpl. destruct (Ascii.eqb a LF); [discriminate |].
  destruct (readlines s); discriminate.
Qed.

Lemma readlines_app (a b : string) :
  a = "" \/ ends_with_LF a = true ->
  readlines (a ++ b) = (readlines a ++ readlines b)%list.
Proof.
  induction a as [| x a IH]; intro Hend; [reflexivity |].
  destruct Hend as [Hend | Hend]; [discriminate |].
  cbn [append readlines]. destruct (Ascii.eqb x LF) eqn:Ex.
  - rewrite IH; [reflexivity |].
    destruct a as [| y a']; [left; reflexivity | right; exact Hend].
  - destruct a as [| y a'].
    + simpl in Hend. congruence.
    + rewrite IH by (right; exact Hend).
      pose proof (readlines_nonempty y a') as Hne.
      destruct (readlines (String y a')) as [| l ls]; [congruence |].
      reflexivity.
Qed.

Lemma file_lines_app (a b : string) :
  ends_with_LF a = true ->
  file_lines (a ++ b) = (file_lines a ++ file_lines b)%list.
Proof.
  intro H. unfold file_lines.
  rewrite universal_newlines_app by auto.
  apply readlines_app. right. apply universal_newlines_ends, H.
Qed.

(** X6: the extraction of two logs put end to end, the first ending in
    a newline, is the extraction of the first followed by the extraction
    of the second; the records keep the order of the lines. *)
Theorem extract_concatenated_logs :
  forall (log1 log2 : string) (data1 data2 : list dict),
    ends_with_LF log1 = true ->
    extract_and_transform log1 = Ok data1 ->
    extract_and_transform log2 = Ok data2 ->
    extract_and_transform (log1 ++ log2) = Ok (data1 ++ data2)%list.
Proof.
  intros log1 log2 data1 data2 Hend H1 H2. unfold extract_and_transform in *.
  rewrite (file_lines_app _ _ Hend).
  rewrite (extract_loop_app _ _ _ _ H1).
  rewrite extract_loop_acc, H2. reflexivity.
Qed.

Lemma extract_concatenated_logs_witness :
  extract_and_transform
    ((alice_line ++ String LF "")
     ++ ("From bob@example.com Tue Jan 15 23:59:59 2024" ++ String LF ""))
  = Ok ([alice_record]
        ++ [[("email", VStr "bob@example.com");
             ("date", VStr "2024-01-15 23:59:59")]])%list.
Proof.
  apply extract_concatenated_logs; vm_compute; reflexivity.
Defined.

(** X7: a log gives at most one record per line. *)
Theorem at_most_one_record_per_line :
  forall (content : string) (data : list dict),
    extract_and_transform content = Ok data ->
    (length data <= length (file_lines content))%nat.
Proof.
  intros content data. unfold extract_and_transform.
  assert (G : forall lines acc data,
             extract_loop lines acc = Ok data ->
             (length data <= length acc + length lines)%nat).
  { induction lines as [| l lines IH]; intros acc d H; simpl in H.
    - injection H as <-. simpl. lia.
    - apply bind_Ok in H as (r & _ & H). destruct r as [rec |];
        apply IH in H; rewrite ?length_app in H; simpl in *; lia. }
  intro H. apply G in H. simpl in H. exact H.
Qed.

Lemma at_most_one_record_per_line_witness :
  (length two_records <= length (file_lines two_lines))%nat.
Proof.
  apply (at_most_one_record_per_line two_lines two_records).
  vm_compute. reflexivity.
Defined.

(** ** More on the primary store *)

Local Open Scope list_scope.

Lemma assign_ids_spec (data : list dict) :
  forall n data' n',
    Pymongo.assign_ids data n = (data', n') ->
    length data' = length data
    /\ forallb (fun d => Pymongo.has_key d "_id") data' = true.
Proof.
  induction data as [| d data IH]; intros n data' n' H; simpl in H.
  - injection H as <- <-. auto.
  - destruct (Pymongo.has_key d "_id") eqn:K.
    + destruct (Pymongo.assign_ids data n) as [ds oid] eqn:E.
      injection H as <- <-. destruct (IH _ _ _ E) as [L F].
      simpl. rewrite K, F, L. auto.
    + destruct (Pymongo.assign_ids data (n + 1)) as [ds oid] eqn:E.
      injection H as <- <-. destruct (IH _ _ _ E) as [L F].
      simpl. rewrite F, L. split; [reflexivity |].
      unfold Pymongo.has_key. rewrite existsb_app. simpl.
      rewrite orb_true_r. reflexivity.
Qed.

Lemma assign_ids_all_have_id (data : list dict) :
  forallb (fun d => Pymongo.has_key d "_id") data = true ->
  forall n, Pymongo.assign_ids data n = (data, n).
Proof.
  induction data as [| d data IH]; simpl; intros H n; [reflexivity |].
  apply andb_true_iff in H as [K H]. rewrite K, (IH H). reflexivity.
Qed.

Lemma bulk_insert_Ok (documents : list dict) :
  forall coll coll',
    Pymongo.bulk_insert documents coll = Ok coll' ->
    coll' = coll ++ map Pymongo.stored documents.
Proof.
  induction documents as [| d ds IH]; intros coll coll' H; simpl in H.
  - injection H as <-. rewrite app_nil_r. reflexivity.
  - destruct (existsb _ coll); [discriminate |].
    apply IH in H. rewrite H, <- app_assoc. reflexivity.
Qed.

Lemma save_to_mongodb_Ok :
  forall (data data' : list dict) (m m' : mongo),
    save_to_mongodb data m = Ok (data', m') ->
    data <> []
    /\ length data' = length data
    /\ forallb (fun d => Pymongo.has_key d "_id") data' = true
    /\ collection m' = map Pymongo.stored data'.
Proof.
  intros data data' m m' H. unfold save_to_mongodb, Pymongo.insert_many in H.
  destruct data as [| d data]; [discriminate |].
  cbn [Pymongo.delete_many next_oid collection] in H.
  destruct (Pymongo.assign_ids (d :: data) (next_oid m)) as [ds oid] eqn:E.
  apply bind_Ok in H as (coll & B & H). injection H as <- <-.
  destruct (assign_ids_spec _ _ _ _ E) as [L F].
  apply bulk_insert_Ok in B. simpl in B.
  repeat split; [discriminate | exact L | exact F | exact B].
Qed.

(** X8: [save_to_mongodb] replaces the collection: when it succeeds, the
    list was not empty, the collection holds one document per element of
    the list, each the stored form of that element, and nothing of what
    the collection held before; every dictionary of the list has an [_id]
    afterwards. *)
Theorem save_replaces_collection :
  forall (data data' : list dict) (m m' : mongo),
    save_to_mongodb data m = Ok (data', m') ->
    data <> []
    /\ length data' = length data
    /\ forallb (fun d => Pymongo.has_key d "_id") data' = true
    /\ collection m' = map Pymongo.stored data'.
Proof. exact save_to_mongodb_Ok. Qed.

Lemma save_replaces_collection_witness :
  two_records <> []
  /\ length (number with_id 9 [("alice@example.com", "2024-01-05 09:08:07");
                               ("bob@example.com", "2024-01-15 23:59:59")])
     = length two_records
  /\ forallb (fun d => Pymongo.has_key d "_id")
       (number with_id 9 [("alice@example.com", "2024-01-05 09:08:07");
                          ("bob@example.com", "2024-01-15 23:59:59")])
     = true
  /\ collection
       (mk_mongo
          (number stored_doc 9 [("alice@example.com", "2024-01-05 09:08:07");
                                ("bob@example.com", "2024-01-15 23:59:59")])
          11)
     = map Pymongo.stored
         (number with_id 9 [("alice@example.com", "2024-01-05 09:08:07");
                            ("bob@example.com", "2024-01-15 23:59:59")]).
Proof.
  apply (save_replaces_collection two_records _ two_documents).
  vm_compute. reflexivity.
Defined.

(** X9: [save_to_mongodb] called again on the list it has just saved
    changes nothing: the dictionaries keep the [_id] they were given, and
    the collection is the same, document for document. *)
Theorem save_again_changes_nothing :
  forall (data data' : list dict) (m m' : mongo),
    save_to_mongodb data m = Ok (data', m') ->
    save_to_mongodb data' m' = Ok (data', m').
Proof.
  intros data data' m m' H.
  destruct (save_to_mongodb_Ok _ _ _ _ H) as (Hne & L & F & C).
  unfold save_to_mongodb, Pymongo.insert_many in *.
  destruct data as [| d data]; [discriminate |].
  destruct data' as [| d' ds']; [discriminate |].
  cbn [Pymongo.delete_many next_oid collection] in *.
  destruct (Pymongo.assign_ids (d :: data) (next_oid m)) as [ds oid] eqn:E.
  apply bind_Ok in H as (coll & B & H). injection H as -> <-.
  cbn [next_oid]. rewrite (assign_ids_all_have_id _ F). rewrite B.
  reflexivity.
Qed.

Lemma save_again_changes_nothing_witness :
  save_to_mongodb
    (number with_id 9 [("alice@example.com", "2024-01-05 09:08:07");
                       ("bob@example.com", "2024-01-15 23:59:59")])
    (mk_mongo
       (number stored_doc 9 [("alice@example.com", "2024-01-05 09:08:07");
                             ("bob@example.com", "2024-01-15 23:59:59")])
       11)
  = Ok (number with_id 9 [("alice@example.com", "2024-01-05 09:08:07");
                          ("bob@example.com", "2024-01-15 23:59:59")],
        mk_mongo
          (number stored_doc 9 [("alice@example.com", "2024-01-05 09:08:07");
                                ("bob@example.com", "2024-01-15 23:59:59")])
          11).
Proof.
  apply (save_again_changes_nothing two_records _ two_documents).
  vm_compute. reflexivity.
Defined.

(** ** More on the transfer *)

Lemma getitem_has_key (d : dict) (key : string) :
  if Pymongo.has_key d key
  then exists v, getitem d key = Ok v
  else getitem d key = Raise (KeyError key).
Proof.
  unfold Pymongo.has_key.
  induction d as [| [k v] d IH]; simpl; [reflexivity |].
  destruct (String.eqb k key); simpl; [eauto | exact IH].
Qed.

Lemma insert_data_of_KeyError (records : list dict) :
  forallb (fun d => Pymongo.has_key d "email" && Pymongo.has_key d "date")
    records = false ->
  exists key,
    insert_data_of records = Raise (KeyError key)
    /\ (key = "email"%string \/ key = "date"%string).
Proof.
  induction records as [| d records IH]; simpl; intro H; [discriminate |].
  pose proof (getitem_has_key d "email") as He.
  pose proof (getitem_has_key d "date") as Hd.
  destruct (Pymongo.has_key d "email").
  - destruct He as [ve ->]. simpl.
    destruct (Pymongo.has_key d "date").
    + destruct Hd as [vd ->]. simpl in *.
      destruct (IH H) as (key & -> & K). simpl. eauto.
    + rewrite Hd. simpl. eauto.
  - rewrite He. simpl. eauto.
Qed.

(** X10: when a document read back from the primary store lacks the key
    [email] or the key [date], [transfer_to_sqlite] raises a [KeyError]
    for one of these two keys. *)
Theorem transfer_missing_key :
  forall (m : mongo) (db : sqlite_db),
    forallb (fun d => Pymongo.has_key d "email" && Pymongo.has_key d "date")
      (Pymongo.find m) = false ->
    exists key,
      transfer_to_sqlite m db = Raise (KeyError key)
      /\ (key = "email"%string \/ key = "date"%string).
Proof.
  intros m db H. unfold transfer_to_sqlite. rewrite delete_all_created.
  destruct (insert_data_of_KeyError _ H) as (key & E & K).
  exists key. rewrite E. auto.
Qed.

Lemma transfer_missing_key_witness :
  exists key,
    transfer_to_sqlite a_document_without_date old_table = Raise (KeyError key)
    /\ (key = "email"%string \/ key = "date"%string).
Proof.
  apply (transfer_missing_key a_document_without_date old_table). reflexivity.
Defined.

Lemma insert_data_of_nullable (records : list dict) :
  forallb is_nullable_record records = true ->
  insert_data_of records = Ok (map params_of_doc records)
  /\ forallb is_nullable_pair (map params_of_doc records) = true
  /\ forallb is_text_pair (map params_of_doc records)
     = forallb is_record records.
Proof.
  induction records as [| d records IH]; simpl; intro H; [auto |].
  apply andb_true_iff in H as [Hd H]. destruct (IH H) as (E & N & T).
  rewrite E, N, T. unfold is_nullable_record in Hd.
  unfold params_of_doc, is_record.
  destruct (getitem d "email") as [[| e |] |]; try discriminate;
    destruct (getitem d "date") as [[| t |] |]; try discriminate; auto.
Qed.

Lemma executemany_NULL (params : list (value * value)) :
  forall (rows : list row) (seq : Z),
    Z.max seq (Sqlite.max_id rows) + Z.of_nat (length params)
    <= Sqlite.max_rowid ->
    forallb is_nullable_pair params = true ->
    forallb is_text_pair params = false ->
    exists msg,
      Sqlite.executemany params (mk_db (Some rows) seq)
      = Raise (IntegrityError msg).
Proof.
  induction params as [| [ve vd] params IH]; intros rows seq R N T;
    [discriminate |].
  cbn [forallb] in N, T. apply andb_true_iff in N as [Np N].
  cbn [Sqlite.executemany]. unfold Sqlite.insert.
  cbn [Sqlite.table user_history sqlite_sequence bind fst snd].
  assert (F : (Sqlite.max_rowid <=? Z.max seq (Sqlite.max_id rows)) = false).
  { apply Z.leb_gt. cbn [length] in R. lia. }
  destruct ve as [| e |]; try discriminate;
    destruct vd as [| t |]; try discriminate;
    cbn [Sqlite.bind_param bind]; cbv zeta; rewrite F;
    cbn [Sqlite.not_null bind]; eauto.
  cbn [is_text_pair andb] in T.
  apply IH; [| exact N | exact T].
  rewrite max_id_app. cbn [row_id length] in *.
  pose proof (max_id_nonneg rows). lia.
Qed.

(** X11: when every document read back has [email] and [date] but one
    of these values is [None], and the identifiers left suffice for the
    documents, [transfer_to_sqlite] raises an [IntegrityError] (the NOT
    NULL constraint of the table). *)
Theorem transfer_None_value :
  forall (m : mongo) (db : sqlite_db),
    forallb is_nullable_record (Pymongo.find m) = true ->
    forallb is_record (Pymongo.find m) = false ->
    has_room db (length (Pymongo.find m)) ->
    exists msg, transfer_to_sqlite m db = Raise (IntegrityError msg).
Proof.
  intros m db N R Room. unfold transfer_to_sqlite. rewrite delete_all_created.
  destruct (insert_data_of_nullable _ N) as (E & Np & T).
  rewrite E. cbn [bind]. apply executemany_NULL; [| exact Np |].
  - unfold has_room in Room. rewrite length_map. simpl. lia.
  - rewrite T. exact R.
Qed.

Lemma transfer_None_value_witness :
  exists msg,
    transfer_to_sqlite a_document_with_None old_table
    = Raise (IntegrityError msg).
Proof.
  apply (transfer_None_value a_document_with_None old_table);
    try reflexivity.
  unfold has_room. simpl. unfold Sqlite.max_rowid. lia.
Defined.

(** X12: when every document read back is a record and the
    identifiers left suffice for them, the table after
    [transfer_to_sqlite] holds exactly the documents' (sender, timestamp)
    pairs, in the order read, under the identifiers that follow the
    largest one ever handed out; nothing else of the previous database
    matters, and the sequence advances by the number of rows. *)
Theorem transfer_rows :
  forall (m : mongo) (db : sqlite_db),
    forallb is_record (Pymongo.find m) = true ->
    0 <= sqlite_sequence db ->
    sqlite_sequence db + Z.of_nat (length (Pymongo.find m))
    <= Sqlite.max_rowid ->
    transfer_to_sqlite m db
    = Ok (mk_db
            (Some (number row_of (sqlite_sequence db + 1)
                     (map pair_of_doc (Pymongo.find m))))
            (sqlite_sequence db + Z.of_nat (length (Pymongo.find m)))).
Proof.
  intros m db H Hseq Room. rewrite (transfer_to_sqlite_exact m db H).
  destruct (Pymongo.find m) as [| d docs].
  - cbn [map number length]. rewrite Z.add_0_r. reflexivity.
  - cbv zeta. rewrite (Z.max_r 0 (sqlite_sequence db)) by exact Hseq.
    apply Z.leb_le in Room. rewrite Room. reflexivity.
Qed.

Lemma transfer_rows_witness :
  transfer_to_sqlite two_documents old_table
  = Ok (mk_db
          (Some (number row_of (sqlite_sequence old_table + 1)
                   (map pair_of_doc (Pymongo.find two_documents))))
          (sqlite_sequence old_table
           + Z.of_nat (length (Pymongo.find two_documents)))).
Proof.
  apply (transfer_rows two_documents old_table);
    [reflexivity | simpl; lia | simpl; unfold Sqlite.max_rowid; lia].
Defined.

(** ** The whole run *)

Lemma pair_of_record_dict (recs : list (string * string)) :
  map pair_of_doc (map record_dict recs) = recs.
Proof.
  induction recs as [| [e t] recs IH]; simpl; [reflexivity |].
  rewrite IH. reflexivity.
Qed.

(** X13: when the extraction gives at least one record and the
    identifiers left suffice for the records, [main] runs to its end:
    both stores then hold exactly the extracted (sender, timestamp)
    pairs, in the order of the log, and the ten queries have been
    executed, whatever each of them did. *)
Theorem main_completes :
  forall (execute : list string -> string -> result (list string))
         (mbox : string) (st : stores) (data : list dict),
    extract_and_transform mbox = Ok data ->
    data <> [] ->
    has_room (relational st) (length data) ->
    exists (st' : stores) (rep : report),
      main execute mbox st = Ok (st', rep)
      /\ map pair_of_doc (collection (primary st')) = map pair_of_doc data
      /\ table_pairs st' = map pair_of_doc data
      /\ executed rep = map snd queries.
Proof.
  intros execute mbox st data H Hne Room.
  destruct (extract_and_transform_records _ _ H) as [recs ->].
  rewrite length_map in Room.
  destruct (load_stores_numbered recs (next_oid (primary st)) _ _ _ st Hne
              (assign_ids_records recs _) eq_refl Room)
    as (rows & E & P).
  unfold main. rewrite H. cbn [bind]. rewrite E. cbn [bind].
  unfold run_sql_queries. rewrite queries_loop_spec. cbn [bind].
  eexists _, _. split; [reflexivity |].
  cbn [primary collection executed app]. unfold table_pairs.
  cbn [relational rows_of user_history].
  rewrite pair_of_record_dict, P.
  repeat split. apply stored_docs_are_records.
Qed.

Lemma main_completes_witness :
  exists (st' : stores) (rep : report),
    main (fun _ _ => Ok []) two_lines used_stores = Ok (st', rep)
    /\ map pair_of_doc (collection (primary st'))
       = map pair_of_doc two_records
    /\ table_pairs st' = map pair_of_doc two_records
    /\ executed rep = map snd queries.
Proof.
  apply (main_completes (fun _ _ => Ok []) two_lines used_stores two_records);
    [vm_compute; reflexivity | discriminate |].
  unfold has_room. simpl. unfold Sqlite.max_rowid. lia.
Defined.

(** ** More on query 4 *)

Lemma instr_from_no_at (s : string) :
  forall i : Z, after_first_at s = None -> Sql.instr_from s "@" i = 0.
Proof.
  induction s as [| a s IH]; intros i H; [reflexivity |].
  cbn [Sql.instr_from]. rewrite prefix_at. simpl in H.
  destruct (Ascii.eqb a "@"); [discriminate | auto].
Qed.

(** X14: for a sender address without ["@"] and without NUL
    character, the domain of query 4 is the whole address. *)
Theorem domain_without_at :
  forall email : string,
    no_NUL email = true ->
    after_first_at email = None -> domain email = email.
Proof.
  intros email N H. unfold domain, Sql.instr, Sql.substr.
  rewrite (instr_from_no_at _ _ H), (until_NUL_no_NUL _ N). reflexivity.
Qed.

Lemma domain_without_at_witness : domain "postmaster" = "postmaster"%string.
Proof. apply (domain_without_at "postmaster"); reflexivity. Defined.

(** X15: query 4 has one result row per distinct domain, and its counts
    add up to the number of rows of the table: every record is counted
    once, under one domain. *)
Theorem emails_per_domain_partition :
  forall rows : list row,
    NoDup (map fst (emails_per_domain rows))
    /\ fold_right Z.add 0 (map snd (emails_per_domain rows))
       = total_number_of_emails rows
    /\ forall d, In d (map fst (emails_per_domain rows))
                 <-> exists r, In r rows /\ domain (row_email r) = d.
Proof.
  intro rows. unfold emails_per_domain, total_number_of_emails.
  split; [apply (group_count_NoDup String.eqb String.eqb_eq) |].
  split.
  - pose proof (group_count_total String.eqb String.eqb_eq
                  (map (fun r => domain (row_email r)) rows)) as T.
    unfold total in T. rewrite length_map in T. exact T.
  - intro d. rewrite (group_count_In String.eqb String.eqb_eq), in_map_iff.
    split; intros (r & A & B); eauto.
Qed.

(** ** Reading the log line by line *)

Lemma readlines_concat (s : string) : String.concat "" (readlines s) = s.
Proof.
  induction s as [| a s IH]; [reflexivity |]. cbn [readlines].
  destruct (Ascii.eqb a LF).
  - change (String.concat "" (String a "" :: readlines s))
      with (match readlines s with
            | [] => String a ""
            | _ => String a "" ++ "" ++ String.concat "" (readlines s)
            end)%string.
    destruct (readlines s) eqn:E; [| simpl in *; rewrite IH; reflexivity].
    simpl in IH. subst s. reflexivity.
  - destruct (readlines s) as [| l ls] eqn:E.
    + simpl in IH. subst s. reflexivity.
    + rewrite <- IH. destruct ls; reflexivity.
Qed.

Lemma String_inj (a b : ascii) (s t : string) :
  String a s = String b t -> a = b /\ s = t.
Proof. intro H. injection H. auto. Qed.

Lemma no_LF_in_empty (before after : string) :
  ""%string <> (before ++ String LF after)%string.
Proof. destruct before; discriminate. Qed.

Lemma readlines_lines (s : string) :
  Forall (fun l => l <> ""%string
                   /\ forall before after,
                        l = (before ++ String LF after)%string ->
                        after = ""%string)
    (readlines s).
Proof.
  induction s as [| a s IH]; [constructor |]. cbn [readlines].
  destruct (Ascii.eqb a LF) eqn:Ea.
  - constructor; [| exact IH]. split; [discriminate |].
    intros [| b before] after E; simpl in E;
      apply String_inj in E as [E1 E2].
    + symmetry. exact E2.
    + destruct (no_LF_in_empty _ _ E2).
  - assert (Head : forall l,
               (forall before after,
                   l = (before ++ String LF after)%string -> after = ""%string) ->
               forall before after,
                 String a l = (before ++ String LF after)%string ->
                 after = ""%string).
    { intros l Hl [| b before] after E; simpl in E;
        apply String_inj in E as [E1 E2].
      - subst a. rewrite Ascii.eqb_refl in Ea. discriminate.
      - exact (Hl _ _ E2). }
    destruct (readlines s) as [| l ls].
    + constructor; [| constructor]. split; [discriminate |].
      apply Head. intros before after E. destruct (no_LF_in_empty _ _ E).
    + inversion IH as [| ? ? [Hne Hl] Hls]; subst.
      constructor; [| exact Hls]. split; [discriminate |].
      apply Head, Hl.
Qed.

(** X16: the lines [extract_and_transform] goes through make up the
    text of the log (with its newlines read as line feeds): put end to
    end they give it back, none is empty, and a line feed occurs in a
    line only as its last character. *)
Theorem file_lines_partition :
  forall content : string,
    String.concat "" (file_lines content) = universal_newlines content
    /\ Forall (fun l => l <> ""%string
                        /\ forall before after,
                             l = (before ++ String LF after)%string ->
                             after = ""%string)
         (file_lines content).
Proof.
  intro content. unfold file_lines.
  split; [apply readlines_concat | apply readlines_lines].
Qed.

(** ** More on the relational store *)

(** X17: on an empty collection [transfer_to_sqlite] does not raise: it
    leaves the table in place, created if need be, without any row. *)
Theorem transfer_of_nothing :
  forall (m : mongo) (db : sqlite_db),
    Pymongo.find m = [] ->
    transfer_to_sqlite m db = Ok (mk_db (Some []) (sqlite_sequence db)).
Proof.
  intros m db H. unfold transfer_to_sqlite.
  rewrite delete_all_created, H. reflexivity.
Qed.

Lemma transfer_of_nothing_witness :
  transfer_to_sqlite (mk_mongo [] 9) old_table
  = Ok (mk_db (Some []) (sqlite_sequence old_table)).
Proof. apply (transfer_of_nothing (mk_mongo [] 9) old_table). reflexivity. Defined.

Lemma number_row_of_ids (ps : list (string * string)) :
  forall (k : Z) (r : row),
    In r (number row_of k ps) -> k <= row_id r < k + Z.of_nat (length ps).
Proof.
  induction ps as [| p ps IH]; intros k r H; simpl in H; [contradiction |].
  destruct H as [<- | H].
  - simpl. lia.
  - apply IH in H. simpl length. lia.
Qed.

(** X18: identifiers are never handed out twice: after a transfer and a
    later transfer into the same database, every row of the second table
    has an identifier larger than every row of the first. *)
Theorem transfers_use_new_ids :
  forall (m1 m2 : mongo) (db db1 db2 : sqlite_db),
    forallb is_record (Pymongo.find m1) = true ->
    forallb is_record (Pymongo.find m2) = true ->
    0 <= sqlite_sequence db ->
    transfer_to_sqlite m1 db = Ok db1 ->
    transfer_to_sqlite m2 db1 = Ok db2 ->
    forall r1 r2,
      In r1 (rows_of db1) -> In r2 (rows_of db2) -> row_id r1 < row_id r2.
Proof.
  intros m1 m2 db db1 db2 R1 R2 Hseq T1 T2 r1 r2 I1 I2.
  rewrite (transfer_to_sqlite_exact m1 db R1) in T1.
  rewrite (transfer_to_sqlite_exact m2 db1 R2) in T2.
  destruct (Pymongo.find m1) as [| d1 docs1];
    [injection T1 as <-; contradiction |].
  cbv zeta in T1.
  destruct (Z.max 0 (sqlite_sequence db) + Z.of_nat (length (d1 :: docs1))
            <=? Sqlite.max_rowid); [| discriminate].
  injection T1 as <-. cbn [sqlite_sequence] in T2.
  destruct (Pymongo.find m2) as [| d2 docs2];
    [injection T2 as <-; contradiction |].
  cbv zeta in T2.
  match type of T2 with
  | (if ?c then _ else _) = _ => destruct c; [| discriminate]
  end.
  injection T2 as <-.
  cbn [rows_of user_history] in I1, I2.
  apply (number_row_of_ids (map pair_of_doc (d1 :: docs1))) in I1.
  apply (number_row_of_ids (map pair_of_doc (d2 :: docs2))) in I2.
  rewrite length_map in I1.
  change (Z.pos (Pos.of_succ_nat (length docs1)))
    with (Z.of_nat (length (d1 :: docs1))) in I2.
  lia.
Qed.

Lemma transfers_use_new_ids_witness :
  row_id (mk_row 3 "bob@example.com" "2024-01-15 23:59:59")
  < row_id (mk_row 4 "alice@example.com" "2024-01-05 09:08:07").
Proof.
  apply (transfers_use_new_ids two_documents two_documents old_table
           (mk_db (Some [mk_row 2 "alice@example.com" "2024-01-05 09:08:07";
                         mk_row 3 "bob@example.com" "2024-01-15 23:59:59"]) 3)
           (mk_db (Some [mk_row 4 "alice@example.com" "2024-01-05 09:08:07";
                         mk_row 5 "bob@example.com" "2024-01-15 23:59:59"]) 5));
    try reflexivity; simpl; auto; lia.
Defined.
